(** * analyze_gas: a shallow embedding of [utils/scripts/analyze_gas.py]

    The script scans a spammer log for transaction hashes, asks a JSON-RPC
    node for the receipt of each of them, saves the receipts it obtained in a
    JSON file and prints gas statistics.

    The embedding follows the script function by function.  The file system
    and the RPC endpoint are a [world] the program reads from; what the
    program prints, posts and writes is recorded, in order, in a trace of
    [event]s.  Python's ways of leaving a function ([return], [sys.exit],
    an exception nobody catches) are the three constructors of [outcome]. *)

From Stdlib Require Import List String Ascii Bool Arith ZArith QArith Lia.
From Stdlib Require Import Floats.SpecFloat.
Import ListNotations.

Local Close Scope Q_scope.
Local Open Scope string_scope.
Local Open Scope list_scope.

(** ** Strings *)

Module Str.

Definition newline : ascii := "010"%char.

(** [s.startswith(p)], returning what follows the prefix. *)
Fixpoint strip_prefix (p s : string) : option string :=
  match p with
  | EmptyString => Some s
  | String a p' =>
      match s with
      | String b s' => if Ascii.eqb a b then strip_prefix p' s' else None
      | EmptyString => None
      end
  end.

Definition startswith (s p : string) : bool :=
  match strip_prefix p s with Some _ => true | None => false end.

(** [p in s] for two strings: [p] occurs somewhere in [s]. *)
Fixpoint contains (p s : string) : bool :=
  startswith s p
  || match s with
     | String _ s' => contains p s'
     | EmptyString => false
     end.

(** The lines a text file yields when it is iterated over: each line keeps
    its terminating newline, the last one may lack it.  The text is the
    file's contents as [open(path, 'r')] hands them out, that is decoded
    and with line ends already translated to the newline character. *)
Fixpoint file_lines (text : string) : list string :=
  match text with
  | EmptyString => []
  | String c rest =>
      if Ascii.eqb c newline then String c EmptyString :: file_lines rest
      else match file_lines rest with
           | [] => [String c EmptyString]
           | line :: lines => String c line :: lines
           end
  end.

End Str.

(** ** The pattern [tx_hash=(0x[a-fA-F0-9]{64})] *)

Module Pattern.

Definition in_range (lo hi : N) (c : ascii) : bool :=
  let n := N_of_ascii c in (N.leb lo n && N.leb n hi)%bool.

(** The character class [[a-fA-F0-9]]. *)
Definition is_hex (c : ascii) : bool :=
  in_range 97 102 c || in_range 65 70 c || in_range 48 57 c.

(** [[a-fA-F0-9]{n}] at the head of [s]: the [n] characters matched. *)
Fixpoint take_hex (n : nat) (s : string) : option string :=
  match n with
  | O => Some EmptyString
  | S n' =>
      match s with
      | String c s' =>
          if is_hex c then option_map (String c) (take_hex n' s') else None
      | EmptyString => None
      end
  end.

(** The pattern matched at the head of [s]; the result is group 1. *)
Definition match_here (s : string) : option string :=
  match Str.strip_prefix "tx_hash=" s with
  | Some after_key =>
      match Str.strip_prefix "0x" after_key with
      | Some digits => option_map (append "0x") (take_hex 64 digits)
      | None => None
      end
  | None => None
  end.

(** [tx_hash_pattern.search(line)]: the leftmost match in the line, as
    [match.group(1)]. *)
Fixpoint search (line : string) : option string :=
  match match_here line with
  | Some tx_hash => Some tx_hash
  | None =>
      match line with
      | String _ rest => search rest
      | EmptyString => None
      end
  end.

(** Every place of [s] where the pattern matches, left to right.  Two
    matches never overlap, since the letter [t] that opens one does not
    occur further inside it. *)
Fixpoint occurrences (s : string) : list string :=
  match s with
  | EmptyString => []
  | String _ rest =>
      match match_here s with
      | Some tx_hash => tx_hash :: occurrences rest
      | None => occurrences rest
      end
  end.

(** The words of the specification: an occurrence is well formed when
    [tx_hash=] is followed by [0x] and exactly 64 hexadecimal characters,
    so that the character after them, if any, is not a hexadecimal one. *)
Definition ends_hex_run (s : string) : bool :=
  match s with
  | String c _ => negb (is_hex c)
  | EmptyString => true
  end.

Fixpoint drop (n : nat) (s : string) : string :=
  match n, s with
  | S n', String _ s' => drop n' s'
  | _, _ => s
  end.

Definition well_formed_here (s : string) : option string :=
  match match_here s with
  | Some tx_hash => if ends_hex_run (drop 74 s) then Some tx_hash else None
  | None => None
  end.

Fixpoint well_formed_occurrences (s : string) : list string :=
  match s with
  | EmptyString => []
  | String _ rest =>
      match well_formed_here s with
      | Some tx_hash => tx_hash :: well_formed_occurrences rest
      | None => well_formed_occurrences rest
      end
  end.

(** An occurrence of [tx_hash=] that is not well formed. *)
Fixpoint malformed_occurrences (s : string) : nat :=
  match s with
  | EmptyString => 0
  | String _ rest =>
      (if Str.startswith s "tx_hash="
       then match well_formed_here s with Some _ => 0 | None => 1 end
       else 0) + malformed_occurrences rest
  end.

End Pattern.

(** ** JSON values, as [json.loads] and [response.json()] build them *)

#[warnings="-register-all"]
Inductive json : Type :=
| JNull
| JBool (b : bool)
| JInt (z : Z)
| JFloat (f : spec_float)
| JStr (s : string)
| JArr (items : list json)
| JObj (fields : list (string * json)).

(** A [dict] with string keys is the list of its items; a key is looked up
    from the front. *)
Definition dict := list (string * json).

Module Py.

(** [key in d] *)
Fixpoint dict_has (d : dict) (key : string) : bool :=
  match d with
  | [] => false
  | (k, _) :: d' => String.eqb k key || dict_has d' key
  end.

(** [d.get(key)], which is [None] for a key that is absent. *)
Fixpoint dict_get (d : dict) (key : string) : json :=
  match d with
  | [] => JNull
  | (k, v) :: d' => if String.eqb k key then v else dict_get d' key
  end.

(** The truth value of an object, as [if x:] and [and] test it. *)
Definition truthy (v : json) : bool :=
  match v with
  | JNull => false
  | JBool b => b
  | JInt z => negb (Z.eqb z 0)
  | JFloat (S754_zero _) => false
  | JFloat _ => true
  | JStr EmptyString => false
  | JStr _ => true
  | JArr [] => false
  | JArr _ => true
  | JObj [] => false
  | JObj _ => true
  end.

(** *** [int(s, base)] on a string

    Leading white space, an optional sign, for base 16 an optional [0x]
    and one optional underscore after it, then digits in which single
    underscores may separate two digits, then white space up to the end.
    The limit CPython puts on the number of decimal digits is left out. *)

Definition is_space (c : ascii) : bool :=
  let n := N_of_ascii c in
  (N.leb 9 n && N.leb n 13) || (N.leb 28 n && N.leb n 32).

Definition digit_value (c : ascii) : option Z :=
  let n := Z.of_N (N_of_ascii c) in
  if Pattern.in_range 48 57 c then Some (n - 48)%Z
  else if Pattern.in_range 97 122 c then Some (n - 87)%Z
  else if Pattern.in_range 65 90 c then Some (n - 55)%Z
  else None.

Definition is_underscore (c : ascii) : bool := Ascii.eqb c "_"%char.

Fixpoint skip_spaces (s : string) : string :=
  match s with
  | String c s' => if is_space c then skip_spaces s' else s
  | EmptyString => s
  end.

(** The digits: [after_underscore] tells that the character before was an
    underscore, [seen] counts the digits read.  The result is the value,
    the number of digits and what is left of the string. *)
Fixpoint scan_digits (base : Z) (after_underscore : bool) (value : Z)
         (seen : nat) (s : string) : option (Z * nat * string) :=
  let stop := if after_underscore then None else Some (value, seen, s) in
  match s with
  | EmptyString => stop
  | String c s' =>
      if is_underscore c then
        if after_underscore then None
        else scan_digits base true value seen s'
      else
        match digit_value c with
        | Some d =>
            if (d <? base)%Z
            then scan_digits base false (value * base + d)%Z (S seen) s'
            else stop
        | None => stop
        end
  end.

Definition skip_sign (s : string) : bool * string :=
  match s with
  | String "+"%char s' => (false, s')
  | String "-"%char s' => (true, s')
  | _ => (false, s)
  end.

Definition skip_base_prefix (base : Z) (s : string) : string :=
  if (base =? 16)%Z then
    match s with
    | String "0"%char (String x s') =>
        if Ascii.eqb x "x"%char || Ascii.eqb x "X"%char then
          match s' with
          | String "_"%char s'' => s''
          | _ => s'
          end
        else s
    | _ => s
    end
  else s.

(** [None] stands for the [ValueError] that [int] raises. *)
Definition int_of_string (base : Z) (s : string) : option Z :=
  let (negative, s1) := skip_sign (skip_spaces s) in
  let s2 := skip_base_prefix base s1 in
  match s2 with
  | String "_"%char _ => None
  | _ =>
      match scan_digits base false 0 0 s2 with
      | Some (value, S _, rest) =>
          match skip_spaces rest with
          | EmptyString => Some (if negative then - value else value)%Z
          | _ => None
          end
      | _ => None
      end
  end.

End Py.

(** ** Leaving a function: return, exit, or an exception nobody catches *)

Inductive exn : Type :=
| ValueError
| TypeError
| AttributeError
| OverflowError.

Inductive outcome (A : Type) : Type :=
| Return (a : A)
| SysExit (code : Z)
| Raised (e : exn).

Arguments Return {A} a.
Arguments SysExit {A} code.
Arguments Raised {A} e.

(** The status the interpreter exits with: 0 when [main] returns, the
    argument of [sys.exit], 1 after a traceback. *)
Definition exit_status {A : Type} (o : outcome A) : Z :=
  match o with
  | Return _ => 0
  | SysExit code => code
  | Raised _ => 1
  end.

Definition outcome_bind {A B : Type} (o : outcome A) (k : A -> outcome B)
  : outcome B :=
  match o with
  | Return a => k a
  | SysExit code => SysExit code
  | Raised e => Raised e
  end.

(** ** What a run prints, posts and writes *)

(** One constructor per [print] of the script; the arguments are the values
    interpolated in its format string. *)
Inductive message : Type :=
| MsgStarting                                  (* Starting gas analysis... *)
| MsgLogFile (path : string)                   (* Log file: {} *)
| MsgRpcUrl (url : string)                     (* RPC URL: {} *)
| MsgOutputFile (path : string)                (* Output file: {} *)
| MsgBlank
| MsgExtracted (n : nat) (path : string)       (* Extracted {} transaction hashes from {} *)
| MsgFileNotFound (path : string)              (* Error: File '{}' not found *)
| MsgReadError (e : string)                    (* Error reading file: {} *)
| MsgRpcError (tx_hash : string) (e : json)    (* RPC error for {}: {} *)
| MsgRequestError (tx_hash : string) (e : string) (* Request error for {}: {} *)
| MsgNoHashes                                  (* No transaction hashes found in log file *)
| MsgFetchingReceipts                          (* Fetching transaction receipts... *)
| MsgFetching (i total : nat) (tx_hash : string) (* [{}/{}] Fetching receipt for {}... *)
| MsgTick
| MsgCross
| MsgSaving (path : string)                    (* Saving results to {}... *)
| MsgSaved (n : nat)                           (* Successfully saved {} receipts *)
| MsgWriteError (e : string)                   (* Error writing output file: {} *)
| MsgSummary                                   (* === Summary === *)
| MsgTotal (n : nat)                           (* Total transactions: {} *)
| MsgSuccessful (n : nat)                      (* Successful: {} *)
| MsgFailed (n : nat)                          (* Failed: {} *)
| MsgGasStatistics                             (* === Gas Usage Statistics === *)
| MsgAverageGas (avg : Q)                      (* Average gas used: {} *)
| MsgMinimumGas (g : Z)                        (* Minimum gas used: {} *)
| MsgMaximumGas (g : Z)                        (* Maximum gas used: {} *)
| MsgTotalGas (g : Z)                          (* Total gas used: {} *)
| MsgNoGasData.                                (* No gas usage data available *)

Inductive event : Type :=
| Stdout (m : message)
| Stderr (m : message)
| HttpPost (url : string) (payload : json)
| FileWritten (path : string) (content : json).

(** ** The world a run lives in *)

Inductive read_result : Type :=
| FileNotFound                 (* FileNotFoundError *)
| ReadError (e : string)       (* any other exception while opening or reading *)
| FileText (text : string).

(** What [requests.post], [raise_for_status] and [response.json()] give:
    a [RequestException] (no connection, timeout, an HTTP error status, a
    body that is not JSON) or the decoded body. *)
Inductive rpc_reply : Type :=
| RequestException (e : string)
| JsonBody (body : json).

Record world : Type := {
  (** opening and reading a text file *)
  open_read : string -> read_result;
  (** the answer to the request numbered [n], counted from 0, posted to
      [url] with [payload] *)
  post : nat -> string -> json -> rpc_reply;
  (** opening a file for writing and dumping [content] into it: [None]
      when that works, the exception's text otherwise *)
  write_json : string -> json -> option string
}.

(** The state threaded through a run: the trace so far, oldest event
    first, and the number of requests posted. *)
Record state : Type := { trace : list event; sent : nat }.

Definition initial : state := {| trace := []; sent := 0 |}.

Definition M (A : Type) : Type := state -> outcome A * state.

Definition ret {A : Type} (a : A) : M A := fun st => (Return a, st).

Definition bind {A B : Type} (m : M A) (k : A -> M B) : M B :=
  fun st =>
    match m st with
    | (Return a, st') => k a st'
    | (SysExit code, st') => (SysExit code, st')
    | (Raised e, st') => (Raised e, st')
    end.

Definition emit (e : event) : M unit :=
  fun st => (Return tt, {| trace := trace st ++ [e]; sent := sent st |}).

Definition sys_exit {A : Type} (code : Z) : M A := fun st => (SysExit code, st).

Definition raise {A : Type} (e : exn) : M A := fun st => (Raised e, st).

Definition lift {A : Type} (o : outcome A) : M A := fun st => (o, st).

Declare Scope monad_scope.
Delimit Scope monad_scope with monad.
Notation "x <- m ;; k" := (bind m (fun x => k))
  (at level 61, m at next level, right associativity) : monad_scope.
Notation "m ;; k" := (bind m (fun _ => k))
  (at level 61, right associativity) : monad_scope.
Notation "' p <- m ;; k" := (bind m (fun x => let 'p := x in k))
  (at level 61, p pattern, m at next level, right associativity) : monad_scope.

Local Open Scope monad_scope.

(** ** The script *)

Record args : Type := {
  log_file : string;
  rpc_url : string;     (* --rpc-url, default http://127.0.0.1:8545 *)
  output : string       (* --output, default gas_analyze.json *)
}.

(** The loop of [extract_tx_hashes] over the lines of the file. *)
Fixpoint scan_lines (lines : list string) (tx_hashes : list string)
  : list string :=
  match lines with
  | [] => tx_hashes
  | line :: rest =>
      match Pattern.search line with
      | Some tx_hash => scan_lines rest (tx_hashes ++ [tx_hash])
      | None => scan_lines rest tx_hashes
      end
  end.

(** The body of the request. *)
Definition payload (tx_hash : string) : json :=
  JObj [("jsonrpc", JStr "2.0");
        ("method", JStr "eth_getTransactionReceipt");
        ("params", JArr [JStr tx_hash]);
        ("id", JInt 1)].

(** The element [main] appends to [receipts]. *)
Definition record (tx_hash : string) (receipt : json) : json :=
  JObj [("tx_hash", JStr tx_hash); ("receipt", receipt)].

(** [int(x)] on a float: truncation, [ValueError] on a NaN and
    [OverflowError] on an infinity. *)
Definition int_of_float (f : spec_float) : outcome Z :=
  match f with
  | S754_zero _ => Return 0%Z
  | S754_infinity _ => Raised OverflowError
  | S754_nan => Raised ValueError
  | S754_finite negative m e =>
      let magnitude :=
        if (0 <=? e)%Z then (Z.pos m * 2 ^ e)%Z
        else (Z.pos m / 2 ^ (- e))%Z in
      Return (if negative then - magnitude else magnitude)%Z
  end.

Definition int_of_string (base : Z) (s : string) : outcome Z :=
  match Py.int_of_string base s with
  | Some z => Return z
  | None => Raised ValueError
  end.

(** Lines 152 to 156: the conversion of a [gasUsed] value. *)
Definition gas_used_of (gas_used_hex : json) : outcome Z :=
  match gas_used_hex with
  | JStr s =>
      if Str.startswith s "0x" then int_of_string 16 s
      else int_of_string 10 s
  | JInt z => Return z
  | JBool b => Return (if b then 1 else 0)%Z
  | JFloat f => int_of_float f
  | JNull | JArr _ | JObj _ => Raised TypeError
  end.

(** [x.get(key)] on an arbitrary value: only a dict has the method. *)
Definition py_get (x : json) (key : string) : outcome json :=
  match x with
  | JObj d => Return (Py.dict_get d key)
  | _ => Raised AttributeError
  end.

(** The loop that fills [gas_used_values]. *)
Fixpoint collect_gas (receipts : list json) (gas_used_values : list Z)
  : outcome (list Z) :=
  match receipts with
  | [] => Return gas_used_values
  | item :: rest =>
      outcome_bind (py_get item "receipt") (fun receipt =>
      if Py.truthy receipt then
        outcome_bind (py_get receipt "gasUsed") (fun gas_used_hex =>
        if Py.truthy gas_used_hex then
          outcome_bind (gas_used_of gas_used_hex) (fun gas_used =>
          collect_gas rest (gas_used_values ++ [gas_used]))
        else collect_gas rest gas_used_values)
      else collect_gas rest gas_used_values)
  end.

(** [sum], [min] and [max] of a list of integers. *)
Definition sum (l : list Z) : Z := fold_left Z.add l 0%Z.

Definition minimum (first : Z) (others : list Z) : Z := fold_left Z.min others first.

Definition maximum (first : Z) (others : list Z) : Z := fold_left Z.max others first.

(** [a / n] on two integers, with [n] positive: the float nearest to the
    quotient, which is modelled by the quotient itself; [OverflowError]
    when the nearest float would be beyond the largest one. *)
Definition float_overflow : Z := (2 ^ 1024 - 2 ^ 970)%Z.

Definition true_divide (a : Z) (n : nat) : outcome Q :=
  if (float_overflow * Z.of_nat n <=? Z.abs a)%Z then Raised OverflowError
  else Return (a # Pos.of_nat n)%Q.

Section Script.

Variable w : world.

Definition http_post (url : string) (body : json) : M rpc_reply :=
  fun st =>
    (Return (post w (sent st) url body),
     {| trace := trace st ++ [HttpPost url body]; sent := S (sent st) |}).

Definition extract_tx_hashes (log_file_path : string) : M (list string) :=
  match open_read w log_file_path with
  | FileText text =>
      let tx_hashes := scan_lines (Str.file_lines text) [] in
      emit (Stdout (MsgExtracted (List.length tx_hashes) log_file_path)) ;;
      ret tx_hashes
  | FileNotFound =>
      emit (Stderr (MsgFileNotFound log_file_path)) ;;
      sys_exit 1
  | ReadError e =>
      emit (Stderr (MsgReadError e)) ;;
      sys_exit 1
  end.

(** The part of [fetch_transaction_receipt] that follows
    [result = response.json()]. *)
Definition receipt_of_body (tx_hash : string) (result : json) : M json :=
  match result with
  | JObj d =>
      if Py.dict_has d "error" then
        emit (Stderr (MsgRpcError tx_hash (Py.dict_get d "error"))) ;;
        ret JNull
      else ret (Py.dict_get d "result")
  | JArr items =>
      (* ["error" in result] looks for an element equal to the string;
         neither [result['error']] nor [result.get] exists on a list *)
      if existsb (fun x => match x with
                           | JStr s => String.eqb s "error"
                           | _ => false
                           end) items
      then raise TypeError else raise AttributeError
  | JStr s =>
      if Str.contains "error" s then raise TypeError else raise AttributeError
  | JNull | JBool _ | JInt _ | JFloat _ => raise TypeError
  end.

Definition fetch_transaction_receipt (tx_hash rpc_url : string) : M json :=
  response <- http_post rpc_url (payload tx_hash) ;;
  match response with
  | JsonBody result => receipt_of_body tx_hash result
  | RequestException e =>
      emit (Stderr (MsgRequestError tx_hash e)) ;;
      ret JNull
  end.

(** The loop of [main] over [enumerate(tx_hashes, 1)]; [total] is
    [len(tx_hashes)]. *)
Fixpoint fetch_loop (rpc_url : string) (total i : nat) (tx_hashes : list string)
         (receipts : list json) (successful failed : nat)
  : M (list json * nat * nat) :=
  match tx_hashes with
  | [] => ret (receipts, successful, failed)
  | tx_hash :: rest =>
      emit (Stdout (MsgFetching i total tx_hash)) ;;
      receipt <- fetch_transaction_receipt tx_hash rpc_url ;;
      if Py.truthy receipt then
        emit (Stdout MsgTick) ;;
        fetch_loop rpc_url total (S i) rest
                   (receipts ++ [record tx_hash receipt]) (successful + 1) failed
      else
        emit (Stdout MsgCross) ;;
        fetch_loop rpc_url total (S i) rest receipts successful (failed + 1)
  end.

(** Lines 137 to 144. *)
Definition save_results (path : string) (receipts : list json) : M unit :=
  emit (Stdout (MsgSaving path)) ;;
  match write_json w path (JArr receipts) with
  | None =>
      emit (FileWritten path (JArr receipts)) ;;
      emit (Stdout (MsgSaved (List.length receipts)))
  | Some e =>
      emit (Stderr (MsgWriteError e)) ;;
      sys_exit 1
  end.

(** Lines 166 to 178. *)
Definition report_gas (gas_used_values : list Z) : M unit :=
  match gas_used_values with
  | first :: others =>
      avg_gas <- lift (true_divide (sum gas_used_values)
                                   (List.length gas_used_values)) ;;
      let min_gas := minimum first others in
      let max_gas := maximum first others in
      let total_gas := sum gas_used_values in
      emit (Stdout MsgGasStatistics) ;;
      emit (Stdout (MsgAverageGas avg_gas)) ;;
      emit (Stdout (MsgMinimumGas min_gas)) ;;
      emit (Stdout (MsgMaximumGas max_gas)) ;;
      emit (Stdout (MsgTotalGas total_gas))
  | [] => emit (Stdout MsgNoGasData)
  end.

(** Lines 146 to 178: the statistics and the summary. *)
Definition summarize (a : args) (tx_hashes : list string) (receipts : list json)
           (successful failed : nat) : M unit :=
  gas_used_values <- lift (collect_gas receipts []) ;;
  emit (Stdout MsgSummary) ;;
  emit (Stdout (MsgTotal (List.length tx_hashes))) ;;
  emit (Stdout (MsgSuccessful successful)) ;;
  emit (Stdout (MsgFailed failed)) ;;
  emit (Stdout (MsgOutputFile (output a))) ;;
  report_gas gas_used_values.

Definition main (a : args) : M unit :=
  emit (Stdout MsgStarting) ;;
  emit (Stdout (MsgLogFile (log_file a))) ;;
  emit (Stdout (MsgRpcUrl (rpc_url a))) ;;
  emit (Stdout (MsgOutputFile (output a))) ;;
  emit (Stdout MsgBlank) ;;
  tx_hashes <- extract_tx_hashes (log_file a) ;;
  match tx_hashes with
  | [] =>
      emit (Stdout MsgNoHashes) ;;
      sys_exit 0
  | _ :: _ =>
      emit (Stdout MsgFetchingReceipts) ;;
      '(receipts, successful, failed) <-
        fetch_loop (rpc_url a) (List.length tx_hashes) 1 tx_hashes [] 0 0 ;;
      save_results (output a) receipts ;;
      summarize a tx_hashes receipts successful failed
  end.

End Script.

(** ** Notions the properties are stated with *)

Definition option_list {A : Type} (o : option A) : list A :=
  match o with Some a => [a] | None => [] end.

(** The hash a line contributes: its leftmost match, when it has one. *)
Definition first_match (line : string) : list string :=
  firstn 1 (Pattern.occurrences line).

(** The first of the lines of a text. *)
Fixpoint first_line (s : string) : string :=
  match s with
  | EmptyString => EmptyString
  | String c rest =>
      if Ascii.eqb c Str.newline then String c EmptyString
      else String c (first_line rest)
  end.

Fixpoint free_of_newline (s : string) : bool :=
  match s with
  | EmptyString => true
  | String c rest => negb (Ascii.eqb c Str.newline) && free_of_newline rest
  end.

(** The claim on extraction in the words of the specification: what is
    extracted is the list of the well-formed occurrences of the file. *)
Definition extracts_every_occurrence (text : string) : Prop :=
  scan_lines (Str.file_lines text) [] = Pattern.well_formed_occurrences text.

Definition is_object (v : json) : bool :=
  match v with JObj _ => true | _ => false end.

(** The specification's criterion for a successful fetch: no [error] field
    and a [result] that is an object, whatever it holds. *)
Definition answers_with_object (d : dict) : bool :=
  negb (Py.dict_has d "error") && is_object (Py.dict_get d "result").

(** The criterion of the code: no [error] field and a [result] that is
    true as a condition. *)
Definition answers_with_receipt (d : dict) : bool :=
  negb (Py.dict_has d "error") && Py.truthy (Py.dict_get d "result").

(** A request that the node answers with a JSON object, or that fails in
    transport. *)
Definition well_formed (reply : rpc_reply) : Prop :=
  match reply with
  | RequestException _ => True
  | JsonBody (JObj _) => True
  | JsonBody _ => False
  end.

(** The receipt a reply brings, if it brings one. *)
Definition fetched (reply : rpc_reply) : option json :=
  match reply with
  | JsonBody (JObj d) =>
      if answers_with_receipt d then Some (Py.dict_get d "result") else None
  | _ => None
  end.

(** The records of the fetches that succeed, the first request being the
    one numbered [n]. *)
Fixpoint fetched_records (w : world) (url : string) (n : nat)
         (tx_hashes : list string) : list json :=
  match tx_hashes with
  | [] => []
  | tx_hash :: rest =>
      match fetched (post w n url (payload tx_hash)) with
      | Some receipt => [record tx_hash receipt]
      | None => []
      end ++ fetched_records w url (S n) rest
  end.

(** The same records, told position by position: the hash at position [k]
    of the input gives a record when the reply to request [n + k] brings a
    receipt, and the record holds that receipt as it came. *)
Definition fetched_by_position (w : world) (url : string) (n : nat)
           (tx_hashes : list string) : list json :=
  flat_map (fun '(k, tx_hash) =>
              match fetched (post w k url (payload tx_hash)) with
              | Some receipt => [record tx_hash receipt]
              | None => []
              end)
           (combine (seq n (List.length tx_hashes)) tx_hashes).

(** What the fetch of one hash adds to the trace. *)
Definition fetch_events (w : world) (url : string) (total i n : nat)
           (tx_hash : string) : list event :=
  [Stdout (MsgFetching i total tx_hash); HttpPost url (payload tx_hash)]
  ++ match post w n url (payload tx_hash) with
     | RequestException e => [Stderr (MsgRequestError tx_hash e); Stdout MsgCross]
     | JsonBody (JObj d) =>
         if Py.dict_has d "error"
         then [Stderr (MsgRpcError tx_hash (Py.dict_get d "error")); Stdout MsgCross]
         else if Py.truthy (Py.dict_get d "result") then [Stdout MsgTick]
              else [Stdout MsgCross]
     | JsonBody _ => []
     end.

Fixpoint fetch_trace (w : world) (url : string) (total i n : nat)
         (tx_hashes : list string) : list event :=
  match tx_hashes with
  | [] => []
  | tx_hash :: rest =>
      fetch_events w url total i n tx_hash
      ++ fetch_trace w url total (S i) (S n) rest
  end.

(** The state after the fetch of one hash. *)
Definition after_fetch (w : world) (url : string) (total i : nat)
           (tx_hash : string) (st : state) : state :=
  {| trace := trace st ++ fetch_events w url total i (sent st) tx_hash;
     sent := S (sent st) |}.







(** Events that belong to neither the saved file nor the summary. *)
Definition quiet (e : event) : bool :=
  match e with
  | FileWritten _ _ => false
  | Stdout MsgSummary | Stdout (MsgTotal _)
  | Stdout (MsgSuccessful _) | Stdout (MsgFailed _) => false
  | _ => true
  end.

Definition is_http_post (e : event) : bool :=
  match e with HttpPost _ _ => true | _ => false end.

Definition is_file_written (e : event) : bool :=
  match e with FileWritten _ _ => true | _ => false end.

(** What [main] prints before it opens the log. *)
Definition banner (a : args) : list event :=
  [Stdout MsgStarting; Stdout (MsgLogFile (log_file a));
   Stdout (MsgRpcUrl (rpc_url a)); Stdout (MsgOutputFile (output a));
   Stdout MsgBlank].

(** The state in which [main] leaves the loop over the hashes, when the
    node answered every request. *)
Definition fetched_state (w : world) (a : args) (tx_hashes : list string)
  : state :=
  {| trace :=
       banner a
       ++ [Stdout (MsgExtracted (List.length tx_hashes) (log_file a));
           Stdout MsgFetchingReceipts]
       ++ fetch_trace w (rpc_url a) (List.length tx_hashes) 1 0 tx_hashes;
     sent := List.length tx_hashes |}.

(** The lines of the final summary. *)
Definition summary_lines (a : args) (total successful failed : nat)
  : list event :=
  [Stdout MsgSummary; Stdout (MsgTotal total);
   Stdout (MsgSuccessful successful); Stdout (MsgFailed failed);
   Stdout (MsgOutputFile (output a))].

(** What saving [receipts] adds to the trace when it works. *)
Definition saved_events (path : string) (receipts : list json) : list event :=
  [Stdout (MsgSaving path); FileWritten path (JArr receipts);
   Stdout (MsgSaved (List.length receipts))].

Definition is_stdout (e : event) : bool :=
  match e with Stdout _ => true | _ => false end.

(** The statistics block for a list of values that is not empty. *)
Definition statistics_lines (avg : Q) (least greatest total : Z) : list event :=
  [Stdout MsgGasStatistics; Stdout (MsgAverageGas avg);
   Stdout (MsgMinimumGas least); Stdout (MsgMaximumGas greatest);
   Stdout (MsgTotalGas total)].

(** ** Sample runs *)

Definition hash_1 : string :=
  "0x1111111111111111111111111111111111111111111111111111111111111111".

Definition hash_2 : string :=
  "0xabcdefABCDEF0123456789abcdefABCDEF0123456789abcdefABCDEF01234567".

Definition hash_3 : string :=
  "0x3333333333333333333333333333333333333333333333333333333333333333".

Definition line_end : string := String Str.newline EmptyString.

Definition log_line (tx_hash : string) : string :=
  ("2025-10-13T13:11:14.355726Z  INFO spammer: Sent tx with hash. nonce=540895 tx_hash="
   ++ tx_hash ++ line_end)%string.

(** A log of one line that reports two transactions. *)
Definition two_on_a_line : string :=
  ("INFO Sent tx with hash. nonce=1 tx_hash=" ++ hash_1
   ++ " retried as tx_hash=" ++ hash_2 ++ line_end)%string.

(** A log of three lines, the second of which holds a truncated hash. *)
Definition three_lines : string :=
  (log_line hash_1 ++ log_line "0x1234" ++ log_line hash_2)%string.

(** A line whose hash is followed by two more hexadecimal characters. *)
Definition overlong_line : string :=
  ("INFO nonce=7 tx_hash=" ++ hash_2 ++ "ff" ++ line_end)%string.

Definition three_hashes : string :=
  (log_line hash_1 ++ log_line hash_2 ++ log_line hash_3)%string.

(** A world with one log file, whatever the path, a node that answers the
    request numbered [n] with the [n]-th of [replies] and times out
    afterwards, and a disk on which writing gives [written]. *)
Definition sample_world (log : read_result) (replies : list rpc_reply)
           (written : option string) : world :=
  {| open_read := fun _ => log;
     post := fun n _ _ => nth n replies (RequestException "timed out");
     write_json := fun _ _ => written |}.

Definition sample_args : args :=
  {| log_file := "spammer.log";
     rpc_url := "http://127.0.0.1:8545";
     output := "gas_analyze.json" |}.

Definition result_reply (result : json) : rpc_reply :=
  JsonBody (JObj [("jsonrpc", JStr "2.0"); ("id", JInt 1); ("result", result)]).

Definition error_reply : rpc_reply :=
  JsonBody (JObj [("jsonrpc", JStr "2.0"); ("id", JInt 1);
                  ("error", JObj [("code", JInt (-32000));
                                  ("message", JStr "unknown transaction")])]).

Definition receipt_with_gas (gas_used : json) : json :=
  JObj [("status", JStr "0x1"); ("gasUsed", gas_used)].

Definition receipt_without_gas : json :=
  JObj [("status", JStr "0x1")].

(** Three transactions: the node has a receipt for the first and the third
    and answers with an error for the second. *)
Definition usual_replies : list rpc_reply :=
  [result_reply (receipt_with_gas (JStr "0x5208"));
   error_reply;
   result_reply (receipt_with_gas (JStr "0xc350"))].

Definition usual_world : world :=
  sample_world (FileText three_hashes) usual_replies None.

(** The same, on a disk that refuses the output file. *)
Definition read_only_world : world :=
  sample_world (FileText three_hashes) usual_replies (Some "Permission denied").

(** A log without any hash. *)
Definition quiet_log_world : world :=
  sample_world (FileText ("INFO spammer: started" ++ line_end)) [] None.

Definition missing_log_world : world := sample_world FileNotFound [] None.

(** A node that knows none of the three transactions. *)
Definition unknowing_world : world :=
  sample_world (FileText three_hashes) [error_reply; result_reply JNull] None.

(** A node that answers the only request with an empty receipt. *)
Definition empty_receipt_world : world :=
  sample_world (FileText (log_line hash_1)) [result_reply (JObj [])] None.


(** A node that reports the gas of the only transaction as the number 0. *)
Definition zero_gas_world : world :=
  sample_world (FileText (log_line hash_1))
               [result_reply (receipt_with_gas (JInt 0))] None.


(** The instance of the specification: 21000, 50000 and a receipt without
    [gasUsed]. *)
Definition instance_receipts : list json :=
  [record hash_1 (receipt_with_gas (JStr "0x5208"));
   record hash_2 (receipt_with_gas (JStr "0xc350"));
   record hash_3 receipt_without_gas].

Definition instance_world : world :=
  sample_world (FileText three_hashes)
               [result_reply (receipt_with_gas (JStr "0x5208"));
                result_reply (receipt_with_gas (JStr "0xc350"));
                result_reply receipt_without_gas] None.

(** ** Further notions: the shape of a hash, whole lines, digits *)

(** Every character of [s] is a hexadecimal one. *)
Fixpoint all_hex (s : string) : bool :=
  match s with
  | EmptyString => true
  | String c rest => Pattern.is_hex c && all_hex rest
  end.

(** A transaction hash: [0x] and 64 hexadecimal characters. *)
Definition is_tx_hash (h : string) : Prop :=
  exists digits,
    h = ("0x" ++ digits)%string
    /\ String.length digits = 64 /\ all_hex digits = true.

(** The place of a hash in a line: right after [tx_hash=]. *)
Definition holds_hash (line h : string) : Prop :=
  exists before after, line = (before ++ "tx_hash=" ++ h ++ after)%string.

(** A text that is empty or ends with a line end. *)
Fixpoint complete_lines (s : string) : bool :=
  match s with
  | EmptyString => true
  | String c rest =>
      match rest with
      | EmptyString => Ascii.eqb c Str.newline
      | String _ _ => complete_lines rest
      end
  end.

(** The hashes the scanner returns for a text. *)
Definition hashes_of (text : string) : list string :=
  scan_lines (Str.file_lines text) [].

(** Every character of [s] is a decimal digit. *)
Fixpoint all_decimal (s : string) : bool :=
  match s with
  | EmptyString => true
  | String c rest => Pattern.in_range 48 57 c && all_decimal rest
  end.

(** A line of the log as the spammer writes it, after the docstring of
    [extract_tx_hashes]. *)
Definition spammer_line (nonce tx_hash : string) : string :=
  ("2025-10-13T13:11:14.355726Z  INFO malachitebft_eth_utils::spammer: Sent tx with hash. nonce="
   ++ nonce ++ " tx_hash=" ++ tx_hash ++ line_end)%string.

(** A log with one such line for each pair of a nonce and a hash. *)
Fixpoint spammer_log (entries : list (string * string)) : string :=
  match entries with
  | [] => EmptyString
  | (nonce, tx_hash) :: rest =>
      (spammer_line nonce tx_hash ++ spammer_log rest)%string
  end.

(** The request for a hash, as an event. *)
Definition post_event (url tx_hash : string) : event :=
  HttpPost url (payload tx_hash).

(** A record for one of [tx_hashes] around a receipt that is true as a
    condition. *)
Definition is_fetched_record (tx_hashes : list string) (item : json) : Prop :=
  exists tx_hash receipt,
    item = record tx_hash receipt
    /\ In tx_hash tx_hashes /\ Py.truthy receipt = true.

(** The state in which [main] enters the loop over the hashes. *)
Definition loop_start (a : args) (tx_hashes : list string) : state :=
  {| trace := banner a
              ++ [Stdout (MsgExtracted (List.length tx_hashes) (log_file a));
                  Stdout MsgFetchingReceipts];
     sent := 0 |}.

(** What [main] does with the result of the loop. *)
Definition after_loop (w : world) (a : args) (tx_hashes : list string)
           (result : list json * nat * nat) : M unit :=
  let '(receipts, successful, failed) := result in
  bind (save_results w (output a) receipts)
       (fun _ => summarize a tx_hashes receipts successful failed).

Definition is_progress (e : event) : bool :=
  match e with Stdout (MsgFetching _ _ _) => true | _ => false end.


(** A disk that cannot read the log. *)
Definition unreadable_log_world : world :=
  sample_world (ReadError "Permission denied") [] None.

(** A node that cannot be reached for the first transaction and knows the
    other two. *)
Definition flaky_world : world :=
  sample_world (FileText three_hashes)
               [RequestException "Connection refused";
                result_reply (receipt_with_gas (JStr "0x5208"));
                result_reply (receipt_with_gas (JStr "0xc350"))] None.

(** A gateway that answers the second request with a JSON array. *)
Definition odd_gateway_world : world :=
  sample_world (FileText three_hashes)
               [result_reply (receipt_with_gas (JStr "0x5208"));
                JsonBody (JArr [JStr "error"; JStr "bad gateway"])] None.

(** A node whose result for the only transaction is a string. *)
Definition string_result_world : world :=
  sample_world (FileText (log_line hash_1)) [result_reply (JStr "pending")] None.





Definition is_tick (e : event) : bool :=
  match e with Stdout MsgTick => true | _ => false end.

Definition is_cross (e : event) : bool :=
  match e with Stdout MsgCross => true | _ => false end.

(** The progress line of the hash at a position, counted from [i]. *)
Definition progress_lines (total i : nat) (tx_hashes : list string)
  : list event :=
  map (fun '(j, tx_hash) => Stdout (MsgFetching j total tx_hash))
      (combine (seq i (List.length tx_hashes)) tx_hashes).

(** * Properties *)

(** ** Log Scanner *)

Lemma search_leftmost (line : string) :
  option_list (Pattern.search line) = first_match line.
Proof.
  unfold first_match.
  induction line as [|c rest IH].
  - reflexivity.
  - cbn [Pattern.search Pattern.occurrences].
    destruct (Pattern.match_here (String c rest)) as [tx_hash|];
      [reflexivity|exact IH].
Qed.

Lemma scan_lines_acc (lines : list string) : forall tx_hashes,
  scan_lines lines tx_hashes = tx_hashes ++ flat_map first_match lines.
Proof.
  induction lines as [|line rest IH]; intros acc; cbn [scan_lines flat_map].
  - now rewrite app_nil_r.
  - rewrite <- search_leftmost.
    destruct (Pattern.search line) as [tx_hash|]; rewrite IH; cbn [option_list].
    + now rewrite <- app_assoc.
    + reflexivity.
Qed.

(** *** Lines and matches: a match never runs over a line end *)

Lemma file_lines_first (s line : string) (lines : list string) :
  Str.file_lines s = line :: lines -> line = first_line s.
Proof.
  revert line lines. induction s as [|c rest IH]; intros line lines Hlines.
  - discriminate.
  - cbn [Str.file_lines first_line] in *.
    destruct (Ascii.eqb c Str.newline); [congruence|].
    destruct (Str.file_lines rest) as [|line' lines'] eqn:Hrest.
    + injection Hlines as <- _. destruct rest as [|c' rest']; [reflexivity|].
      cbn [Str.file_lines] in Hrest.
      destruct (Ascii.eqb c' Str.newline); [discriminate|].
      destruct (Str.file_lines rest'); discriminate.
    + injection Hlines as <- _. f_equal. eapply IH. reflexivity.
Qed.

Lemma file_lines_none (s : string) : Str.file_lines s = [] -> s = EmptyString.
Proof.
  destruct s as [|c rest]; [reflexivity|]. cbn [Str.file_lines].
  destruct (Ascii.eqb c Str.newline); [discriminate|].
  destruct (Str.file_lines rest); discriminate.
Qed.

Lemma strip_prefix_first_line (p : string) : forall s,
  free_of_newline p = true ->
  Str.strip_prefix p (first_line s) = option_map first_line (Str.strip_prefix p s).
Proof.
  induction p as [|a p IH]; intros s Hfree; [reflexivity|].
  cbn [free_of_newline] in Hfree. apply andb_prop in Hfree as [Ha Hp].
  apply negb_true_iff in Ha.
  destruct s as [|b s]; [reflexivity|].
  cbn [first_line]. destruct (Ascii.eqb b Str.newline) eqn:Hb.
  - apply Ascii.eqb_eq in Hb. subst b. cbn [Str.strip_prefix]. now rewrite Ha.
  - cbn [Str.strip_prefix]. destruct (Ascii.eqb a b); [now apply IH|reflexivity].
Qed.

Lemma take_hex_first_line (n : nat) : forall s,
  Pattern.take_hex n (first_line s) = Pattern.take_hex n s.
Proof.
  induction n as [|n IH]; intros s; [reflexivity|].
  destruct s as [|c s]; [reflexivity|].
  cbn [first_line]. destruct (Ascii.eqb c Str.newline) eqn:Hc.
  - apply Ascii.eqb_eq in Hc. subst c. reflexivity.
  - cbn [Pattern.take_hex]. now rewrite IH.
Qed.

Lemma match_here_first_line (s : string) :
  Pattern.match_here (first_line s) = Pattern.match_here s.
Proof.
  unfold Pattern.match_here.
  rewrite strip_prefix_first_line by reflexivity.
  destruct (Str.strip_prefix "tx_hash=" s) as [after_key|]; [|reflexivity].
  cbn [option_map]. rewrite strip_prefix_first_line by reflexivity.
  destruct (Str.strip_prefix "0x" after_key) as [digits|]; [|reflexivity].
  cbn [option_map]. now rewrite take_hex_first_line.
Qed.

(** The matches of a file are those of its lines, line after line. *)
Lemma occurrences_line_by_line (text : string) :
  flat_map Pattern.occurrences (Str.file_lines text) = Pattern.occurrences text.
Proof.
  induction text as [|c rest IH]; [reflexivity|].
  cbn [Str.file_lines]. destruct (Ascii.eqb c Str.newline) eqn:Hc.
  - apply Ascii.eqb_eq in Hc. subst c. cbn [flat_map]. rewrite IH. reflexivity.
  - destruct (Str.file_lines rest) as [|line lines] eqn:Hlines.
    + apply file_lines_none in Hlines. subst rest. cbn [flat_map].
      now rewrite app_nil_r.
    + pose proof (file_lines_first _ _ _ Hlines) as ->.
      cbn [flat_map] in *.
      assert (Hline : String c (first_line rest) = first_line (String c rest))
        by (cbn [first_line]; now rewrite Hc).
      cbn [Pattern.occurrences].
      rewrite Hline, match_here_first_line, <- IH.
      now destruct (Pattern.match_here (String c rest)).
Qed.

(** In a log with at most one match on a line, as the spammer writes it,
    the scanner returns every match of the file. *)
Lemma one_match_a_line_extracts_all (text : string) :
  Forall (fun line => List.length (Pattern.occurrences line) <= 1)
         (Str.file_lines text) ->
  scan_lines (Str.file_lines text) [] = Pattern.occurrences text.
Proof.
  intros Hone. rewrite scan_lines_acc, <- occurrences_line_by_line. cbn [app].
  induction Hone as [|line lines Hline _ IH]; [reflexivity|].
  cbn [flat_map]. rewrite IH. f_equal. unfold first_match.
  destruct (Pattern.occurrences line) as [|h [|h' l]]; try reflexivity.
  cbn in Hline. lia.
Qed.

(** Characters that follow the 64th are not looked at: a hash followed by
    more hexadecimal characters is extracted, cut to 64. *)
Lemma overlong_hash_is_cut :
  Pattern.well_formed_occurrences overlong_line = []
  /\ scan_lines (Str.file_lines overlong_line) [] = [hash_2].
Proof. split; vm_compute; reflexivity. Qed.

(** C1, counterexample: a line with two well-formed occurrences and no
    malformed one yields only the first of the two hashes. *)
Lemma second_hash_on_a_line_is_lost :
  Pattern.well_formed_occurrences two_on_a_line = [hash_1; hash_2]
  /\ Pattern.malformed_occurrences two_on_a_line = 0
  /\ scan_lines (Str.file_lines two_on_a_line) [] = [hash_1]
  /\ ~ extracts_every_occurrence two_on_a_line.
Proof.
  repeat split; try (vm_compute; reflexivity).
  unfold extracts_every_occurrence; vm_compute; discriminate.
Qed.

(** C1, as amended: the scanner keeps, for each line of the file in order,
    the leftmost place where [tx_hash=0x] is followed by 64 hexadecimal
    characters, hence one hash per matching line, duplicates included; it
    reports their number and returns them. *)
Theorem extract_tx_hashes_first_per_line
        (w : world) (path text : string) (st : state) :
  open_read w path = FileText text ->
  let tx_hashes := flat_map first_match (Str.file_lines text) in
  extract_tx_hashes w path st =
    (Return tx_hashes,
     {| trace := trace st ++ [Stdout (MsgExtracted (List.length tx_hashes) path)];
        sent := sent st |}).
Proof.
  intros Hopen tx_hashes. unfold extract_tx_hashes. rewrite Hopen.
  rewrite scan_lines_acc. reflexivity.
Qed.

Lemma extract_tx_hashes_first_per_line_witness :
  open_read (sample_world (FileText three_lines) [] None) "spammer.log"
    = FileText three_lines
  /\ extract_tx_hashes (sample_world (FileText three_lines) [] None)
                       "spammer.log" initial
     = (Return [hash_1; hash_2],
        {| trace := [Stdout (MsgExtracted 2 "spammer.log")]; sent := 0 |}).
Proof.
  split; [reflexivity|].
  exact (extract_tx_hashes_first_per_line
           (sample_world (FileText three_lines) [] None)
           "spammer.log" three_lines initial eq_refl).
Defined.

(** ** Receipt Fetcher *)

(** Two runs are the same when their results, counts and states are. *)
Ltac same_run :=
  repeat match goal with
         | |- (_, _) = (_, _) => f_equal
         | |- Return _ = Return _ => f_equal
         | |- Build_state _ _ = Build_state _ _ => f_equal
         end;
  try reflexivity; try lia.

Section Fetcher.

Variable w : world.
Variable url : string.
Variable total : nat.

Lemma fetch_loop_success i tx_hash rest receipts successful failed st d :
  post w (sent st) url (payload tx_hash) = JsonBody (JObj d) ->
  answers_with_receipt d = true ->
  fetch_loop w url total i (tx_hash :: rest) receipts successful failed st =
  fetch_loop w url total (S i) rest
             (receipts ++ [record tx_hash (Py.dict_get d "result")])
             (successful + 1) failed (after_fetch w url total i tx_hash st).
Proof.
  intros Hpost Hok. unfold answers_with_receipt in Hok.
  apply andb_prop in Hok as [Herr Hres]. apply negb_true_iff in Herr.
  unfold after_fetch, fetch_events.
  cbn [fetch_loop]. unfold bind, emit, fetch_transaction_receipt, bind, http_post.
  cbn [trace sent]. rewrite Hpost. cbn [receipt_of_body].
  rewrite Herr. unfold ret. rewrite Hres. cbn [trace sent].
  rewrite <- !app_assoc. reflexivity.
Qed.

Lemma fetch_loop_failure i tx_hash rest receipts successful failed st :
  well_formed (post w (sent st) url (payload tx_hash)) ->
  fetched (post w (sent st) url (payload tx_hash)) = None ->
  fetch_loop w url total i (tx_hash :: rest) receipts successful failed st =
  fetch_loop w url total (S i) rest receipts successful (failed + 1)
             (after_fetch w url total i tx_hash st).
Proof.
  intros Hwf Hnone. unfold after_fetch, fetch_events.
  cbn [fetch_loop]. unfold bind, emit, fetch_transaction_receipt, bind, http_post.
  cbn [trace sent].
  destruct (post w (sent st) url (payload tx_hash)) as [e|body].
  - unfold emit, ret. cbn. rewrite <- !app_assoc. reflexivity.
  - destruct body; try contradiction. cbn [receipt_of_body fetched] in *.
    unfold answers_with_receipt in Hnone.
    destruct (Py.dict_has fields "error"); cbn [negb andb] in Hnone.
    + unfold bind, emit, ret. cbn. rewrite <- !app_assoc. reflexivity.
    + unfold ret.
      destruct (Py.truthy (Py.dict_get fields "result")); [discriminate|].
      cbn [trace sent]. rewrite <- !app_assoc. reflexivity.
Qed.

Lemma fetched_records_length n tx_hashes :
  List.length (fetched_records w url n tx_hashes) <= List.length tx_hashes.
Proof.
  revert n. induction tx_hashes as [|tx_hash rest IH]; intros n; cbn.
  - lia.
  - rewrite length_app. specialize (IH (S n)).
    destruct (fetched _); cbn; lia.
Qed.

(** With a node that always answers, the loop runs to its end: it returns
    the records of the fetches that succeeded and the two counts. *)
Lemma fetch_loop_returns :
  (forall n tx_hash, well_formed (post w n url (payload tx_hash))) ->
  forall tx_hashes i receipts successful failed st,
    let fetched_now := fetched_records w url (sent st) tx_hashes in
    fetch_loop w url total i tx_hashes receipts successful failed st =
    (Return (receipts ++ fetched_now,
             successful + List.length fetched_now,
             failed + (List.length tx_hashes - List.length fetched_now)),
     {| trace := trace st ++ fetch_trace w url total i (sent st) tx_hashes;
        sent := sent st + List.length tx_hashes |}).
Proof.
  intros Hwf tx_hashes.
  induction tx_hashes as [|tx_hash rest IH]; intros i receipts successful failed st.
  - cbn. unfold ret. rewrite !app_nil_r, !Nat.add_0_r. now destruct st.
  - cbn zeta. cbn [fetched_records fetch_trace List.length].
    pose proof (fetched_records_length (S (sent st)) rest) as Hlen.
    destruct (fetched (post w (sent st) url (payload tx_hash))) as [receipt|] eqn:Hf.
    + pose proof (Hwf (sent st) tx_hash) as Hw.
      destruct (post w (sent st) url (payload tx_hash)) as [e|body] eqn:Hpost;
        [discriminate|].
      destruct body; try contradiction. cbn [fetched] in Hf.
      destruct (answers_with_receipt fields) eqn:Hok; [|discriminate].
      injection Hf as <-.
      rewrite (fetch_loop_success _ _ _ _ _ _ _ _ Hpost Hok), IH.
      unfold after_fetch; cbn [trace sent List.length app].
      rewrite <- !app_assoc. cbn [app].
      same_run.
    + rewrite (fetch_loop_failure _ _ _ _ _ _ _ (Hwf _ _) Hf), IH.
      unfold after_fetch; cbn [trace sent List.length app].
      rewrite <- !app_assoc.
      same_run.
Qed.

(** Whatever the node answers, a fetch only adds events that are neither
    the saved file nor summary lines. *)
Lemma fetch_transaction_receipt_quiet tx_hash st :
  exists tr,
    trace (snd (fetch_transaction_receipt w tx_hash url st)) = trace st ++ tr
    /\ forallb quiet tr = true.
Proof.
  unfold fetch_transaction_receipt, bind, http_post. cbn [trace sent].
  destruct (post w (sent st) url (payload tx_hash)) as [e|body].
  - eexists. unfold emit, ret. cbn [snd trace]. rewrite <- app_assoc.
    split; reflexivity.
  - destruct body; cbn [receipt_of_body]; unfold raise;
      try (eexists; cbn [snd trace]; split; reflexivity).
    + destruct (Str.contains "error" s);
        eexists; cbn [snd trace]; split; reflexivity.
    + destruct (existsb _ items);
        eexists; cbn [snd trace]; split; reflexivity.
    + destruct (Py.dict_has fields "error"); unfold bind, emit, ret;
        eexists; cbn [snd trace]; rewrite <- ?app_assoc; split; reflexivity.
Qed.

(** The invariant of the loop: each hash adds one to exactly one of the two
    counts, and a record exactly when it adds to the first. *)
Lemma fetch_loop_counts tx_hashes :
  forall i receipts successful failed st o st',
    fetch_loop w url total i tx_hashes receipts successful failed st = (o, st') ->
    exists tr,
      trace st' = trace st ++ tr
      /\ forallb quiet tr = true
      /\ forall receipts' successful' failed',
          o = Return (receipts', successful', failed') ->
          successful' + failed' = successful + failed + List.length tx_hashes
          /\ List.length receipts' + successful
             = List.length receipts + successful'.
Proof.
  induction tx_hashes as [|tx_hash rest IH];
    intros i receipts successful failed st o st' Hrun.
  - injection Hrun as <- <-. exists []. rewrite app_nil_r.
    repeat split; try reflexivity; injection H as <- <- <-; cbn; lia.
  - cbn [fetch_loop] in Hrun. unfold bind at 1 in Hrun. unfold emit at 1 in Hrun.
    unfold bind at 1 in Hrun.
    destruct (fetch_transaction_receipt_quiet tx_hash
                {| trace := trace st ++ [Stdout (MsgFetching i total tx_hash)];
                   sent := sent st |}) as (tr1 & Htr1 & Hq1).
    destruct (fetch_transaction_receipt w tx_hash url _) as [[receipt|code|e] st1];
      cbn [snd trace] in Htr1.
    + destruct (Py.truthy receipt); unfold bind at 1 in Hrun;
        unfold emit at 1 in Hrun;
        apply IH in Hrun as (tr2 & Htr2 & Hq2 & Hcount); cbn [trace] in Htr2;
        rewrite Htr1, <- !app_assoc in Htr2;
        eexists; (split; [exact Htr2|]);
        (split; [cbn [app forallb quiet]; rewrite forallb_app, Hq1; exact Hq2|]);
        intros r s f Hret; specialize (Hcount r s f Hret);
        rewrite ?length_app in Hcount; cbn [List.length] in *; lia.
    + injection Hrun as <- <-. rewrite Htr1, <- app_assoc.
      eexists. split; [reflexivity|].
      split; [cbn [app forallb quiet]; exact Hq1|discriminate].
    + injection Hrun as <- <-. rewrite Htr1, <- app_assoc.
      eexists. split; [reflexivity|].
      split; [cbn [app forallb quiet]; exact Hq1|discriminate].
Qed.

End Fetcher.

(** ** The whole run *)

Section Run.

Variable w : world.
Variable a : args.

Lemma main_missing_log :
  open_read w (log_file a) = FileNotFound ->
  main w a initial =
    (SysExit 1,
     {| trace := banner a ++ [Stderr (MsgFileNotFound (log_file a))];
        sent := 0 |}).
Proof.
  intros Hopen. unfold main, bind, emit, extract_tx_hashes. cbn [trace sent initial app].
  rewrite Hopen. reflexivity.
Qed.

Lemma main_no_hashes text :
  open_read w (log_file a) = FileText text ->
  scan_lines (Str.file_lines text) [] = [] ->
  main w a initial =
    (SysExit 0,
     {| trace := banner a ++ [Stdout (MsgExtracted 0 (log_file a));
                              Stdout MsgNoHashes];
        sent := 0 |}).
Proof.
  intros Hopen Hnone. unfold main, bind, emit, extract_tx_hashes.
  cbn [trace sent initial app]. rewrite Hopen, Hnone. reflexivity.
Qed.

Lemma main_with_answers text :
  open_read w (log_file a) = FileText text ->
  let tx_hashes := scan_lines (Str.file_lines text) [] in
  tx_hashes <> [] ->
  (forall n tx_hash, well_formed (post w n (rpc_url a) (payload tx_hash))) ->
  let receipts := fetched_records w (rpc_url a) 0 tx_hashes in
  main w a initial =
    (save_results w (output a) receipts ;;
     summarize a tx_hashes receipts (List.length receipts)
               (List.length tx_hashes - List.length receipts))
      (fetched_state w a tx_hashes).
Proof.
  intros Hopen tx_hashes Hsome Hwf receipts.
  unfold main, bind at 1 2 3 4 5 6, emit, extract_tx_hashes.
  cbn [trace sent initial app]. rewrite Hopen.
  unfold bind at 1, emit, ret. cbn [trace sent app].
  fold tx_hashes. destruct tx_hashes as [|first others] eqn:Hhashes; [congruence|].
  unfold bind at 1. cbn [trace sent app].
  unfold bind at 1. rewrite (fetch_loop_returns _ _ _ Hwf). cbn [trace sent app].
  reflexivity.
Qed.

Lemma save_results_fails path receipts e st :
  write_json w path (JArr receipts) = Some e ->
  save_results w path receipts st =
    (SysExit 1,
     {| trace := trace st ++ [Stdout (MsgSaving path); Stderr (MsgWriteError e)];
        sent := sent st |}).
Proof.
  intros Hwrite. unfold save_results, bind, emit. cbn [trace sent].
  rewrite Hwrite. unfold sys_exit. cbn [trace sent]. now rewrite <- app_assoc.
Qed.

Lemma save_results_works path receipts st :
  write_json w path (JArr receipts) = None ->
  save_results w path receipts st =
    (Return tt,
     {| trace := trace st ++ saved_events path receipts; sent := sent st |}).
Proof.
  intros Hwrite. unfold save_results, bind, emit. cbn [trace sent].
  rewrite Hwrite. cbn [trace sent]. now rewrite <- !app_assoc.
Qed.

Lemma report_gas_stdout gas_used_values st :
  exists tr,
    trace (snd (report_gas gas_used_values st)) = trace st ++ tr
    /\ forallb is_stdout tr = true /\ forallb quiet tr = true.
Proof.
  unfold report_gas. destruct gas_used_values as [|first others].
  - eexists. unfold emit. cbn [snd trace]. repeat split; reflexivity.
  - unfold bind at 1, lift.
    destruct (true_divide _ _) as [avg|code|e].
    + unfold bind, emit. cbn [snd trace]. rewrite <- !app_assoc.
      eexists. repeat split; reflexivity.
    + exists []. cbn [snd]. rewrite app_nil_r. repeat split; reflexivity.
    + exists []. cbn [snd]. rewrite app_nil_r. repeat split; reflexivity.
Qed.

(** The summary comes whole or not at all, and nothing but lines on the
    standard output follows the saving of the file. *)
Lemma summarize_shape tx_hashes receipts successful failed st :
  exists tr,
    trace (snd (summarize a tx_hashes receipts successful failed st))
      = trace st ++ tr
    /\ forallb is_stdout tr = true
    /\ (tr = []
        \/ exists post,
             tr = summary_lines a (List.length tx_hashes) successful failed ++ post
             /\ forallb quiet post = true).
Proof.
  unfold summarize, bind at 1, lift.
  destruct (collect_gas receipts []) as [gas_used_values|code|e].
  - unfold bind at 1 2 3 4 5, emit. cbn [trace sent].
    rewrite <- !app_assoc. cbn [app].
    match goal with
    | |- context [report_gas gas_used_values ?s] =>
        destruct (report_gas_stdout gas_used_values s) as (post & Hpost & Hout & Hq)
    end.
    cbn [trace] in Hpost. rewrite <- app_assoc in Hpost.
    exists (summary_lines a (List.length tx_hashes) successful failed ++ post).
    split; [exact Hpost|]. split.
    + rewrite forallb_app, Hout. reflexivity.
    + right. exists post. split; [reflexivity|exact Hq].
  - exists []. cbn [snd]. rewrite app_nil_r. repeat split. now left.
  - exists []. cbn [snd]. rewrite app_nil_r. repeat split. now left.
Qed.

Lemma summarize_nothing_fetched tx_hashes failed st :
  summarize a tx_hashes [] 0 failed st =
    (Return tt,
     {| trace := trace st
                 ++ summary_lines a (List.length tx_hashes) 0 failed
                 ++ [Stdout MsgNoGasData];
        sent := sent st |}).
Proof.
  unfold summarize, bind, lift, emit, report_gas. cbn [collect_gas trace sent].
  unfold emit. cbn [trace sent]. rewrite <- !app_assoc. reflexivity.
Qed.

Lemma fetch_trace_quiet url total tx_hashes : forall i n,
  forallb quiet (fetch_trace w url total i n tx_hashes) = true.
Proof.
  induction tx_hashes as [|tx_hash rest IH]; intros i n; [reflexivity|].
  cbn [fetch_trace]. rewrite forallb_app, IH, andb_true_r.
  unfold fetch_events. destruct (post w n url (payload tx_hash)) as [e|body];
    [reflexivity|].
  destruct body; try reflexivity.
  destruct (Py.dict_has fields "error"); [reflexivity|].
  destruct (Py.truthy _); reflexivity.
Qed.

(** One request is posted for each hash. *)
Lemma fetch_trace_posts url total tx_hashes : forall i n,
  List.length (filter is_http_post (fetch_trace w url total i n tx_hashes))
  = List.length tx_hashes.
Proof.
  induction tx_hashes as [|tx_hash rest IH]; intros i n; [reflexivity|].
  cbn [fetch_trace]. rewrite filter_app, length_app, IH.
  unfold fetch_events. cbn [app filter is_http_post List.length].
  destruct (post w n url (payload tx_hash)) as [e|body]; [reflexivity|].
  destruct body; try reflexivity.
  destruct (Py.dict_has fields "error"); [reflexivity|].
  destruct (Py.truthy _); reflexivity.
Qed.

End Run.

Lemma forallb_filter_nil {A : Type} (keep wanted : A -> bool) (l : list A) :
  (forall x, keep x = true -> wanted x = false) ->
  forallb keep l = true -> filter wanted l = [].
Proof.
  intros Hsep. induction l as [|x l IH]; [reflexivity|].
  cbn [forallb filter]. intros Hall. apply andb_prop in Hall as [Hx Hl].
  rewrite (Hsep x Hx). auto.
Qed.

Lemma quiet_not_written (e : event) : quiet e = true -> is_file_written e = false.
Proof. destruct e; try reflexivity. discriminate. Qed.


Lemma quiet_in (e : event) (tr : list event) :
  forallb quiet tr = true -> In e tr -> quiet e = true.
Proof. intros Hall Hin. rewrite forallb_forall in Hall. auto. Qed.

Lemma fetched_records_by_position w url tx_hashes : forall n,
  fetched_records w url n tx_hashes = fetched_by_position w url n tx_hashes.
Proof.
  unfold fetched_by_position.
  induction tx_hashes as [|tx_hash rest IH]; intros n; [reflexivity|].
  cbn [fetched_records List.length seq combine flat_map]. now rewrite IH.
Qed.

Lemma fetched_records_none w url tx_hashes : forall n,
  (forall k tx_hash, fetched (post w k url (payload tx_hash)) = None) ->
  fetched_records w url n tx_hashes = [].
Proof.
  intros n Hnone. revert n.
  induction tx_hashes as [|tx_hash rest IH]; intros n; [reflexivity|].
  cbn [fetched_records]. now rewrite Hnone, IH.
Qed.

(** Every run of [main] either never reaches the saving of the file, or
    saves once and then prints the whole summary or none of it. *)
Lemma main_shape w a tr :
  trace (snd (main w a initial)) = tr ->
  forallb quiet tr = true
  \/ exists text receipts successful failed pre summary post,
       open_read w (log_file a) = FileText text
       /\ successful + failed = List.length (scan_lines (Str.file_lines text) [])
       /\ List.length receipts = successful
       /\ forallb quiet pre = true
       /\ forallb quiet post = true
       /\ (summary = []
           \/ summary = summary_lines a (List.length (scan_lines (Str.file_lines text) []))
                                      successful failed)
       /\ tr = pre ++ saved_events (output a) receipts ++ summary ++ post.
Proof.
  intros Hrun.
  unfold main, bind at 1 2 3 4 5 6, emit, extract_tx_hashes in Hrun.
  cbn [trace sent initial app] in Hrun.
  destruct (open_read w (log_file a)) as [|e|text] eqn:Hopen;
    try (left; rewrite <- Hrun; reflexivity).
  unfold bind at 1, emit, ret in Hrun. cbn [trace sent app] in Hrun.
  destruct (scan_lines (Str.file_lines text) []) as [|first others] eqn:Hscan;
    [left; rewrite <- Hrun; reflexivity|].
  unfold bind at 1 in Hrun. cbn [trace sent app] in Hrun. unfold bind at 1 in Hrun.
  match type of Hrun with
  | context [fetch_loop ?w ?u ?t ?i ?hs ?r ?s ?f ?st] =>
      destruct (fetch_loop w u t i hs r s f st) as [o st1] eqn:Hloop
  end.
  apply fetch_loop_counts in Hloop as (tr1 & Htr1 & Hq1 & Hcount).
  cbn [trace] in Htr1.
  destruct o as [[[receipts successful] failed]|code|e];
    try (left; rewrite <- Hrun; cbn [snd]; rewrite Htr1;
         cbn [app forallb quiet]; exact Hq1).
  destruct (Hcount _ _ _ eq_refl) as [Hsum Hlen]. cbn [List.length] in Hsum, Hlen.
  unfold bind at 1 in Hrun.
  destruct (write_json w (output a) (JArr receipts)) as [e|] eqn:Hwrite.
  - rewrite (save_results_fails _ _ _ _ _ Hwrite) in Hrun. left.
    rewrite <- Hrun. cbn [snd trace].
    rewrite Htr1, forallb_app. cbn [app forallb quiet]. now rewrite Hq1.
  - rewrite (save_results_works _ _ _ _ Hwrite) in Hrun. cbv beta iota in Hrun.
    match type of Hrun with
    | context [summarize a ?hs ?r ?s ?f ?st] =>
        destruct (summarize_shape a hs r s f st) as (tr2 & Htr2 & _ & Hshape)
    end.
    cbn [trace] in Htr2. rewrite Htr2 in Hrun. right.
    exists text, receipts, successful, failed, (trace st1).
    assert (Hpre : forallb quiet (trace st1) = true)
      by (rewrite Htr1; cbn [app forallb quiet]; exact Hq1).
    destruct Hshape as [->|(post & -> & Hq2)].
    + exists [], []. rewrite <- Hrun, Hscan. cbn [List.length].
      split; [reflexivity|]. split; [lia|]. split; [lia|].
      split; [exact Hpre|]. split; [reflexivity|]. split; [now left|].
      now rewrite !app_nil_r.
    + exists (summary_lines a (List.length (first :: others)) successful failed), post.
      rewrite <- Hrun, Hscan. cbn [List.length].
      split; [reflexivity|]. split; [lia|]. split; [lia|].
      split; [exact Hpre|]. split; [exact Hq2|]. split; [now right|].
      now rewrite <- !app_assoc.
Qed.

Lemma main_write_fails w a text e :
  open_read w (log_file a) = FileText text ->
  let tx_hashes := scan_lines (Str.file_lines text) [] in
  tx_hashes <> [] ->
  (forall n tx_hash, well_formed (post w n (rpc_url a) (payload tx_hash))) ->
  write_json w (output a) (JArr (fetched_records w (rpc_url a) 0 tx_hashes))
    = Some e ->
  main w a initial =
    (SysExit 1,
     {| trace := trace (fetched_state w a tx_hashes)
                 ++ [Stdout (MsgSaving (output a)); Stderr (MsgWriteError e)];
        sent := List.length tx_hashes |}).
Proof.
  intros Hopen tx_hashes Hsome Hwf Hwrite.
  rewrite (main_with_answers w a text Hopen Hsome Hwf). fold tx_hashes.
  unfold bind at 1. now rewrite (save_results_fails _ _ _ _ _ Hwrite).
Qed.

Lemma main_saves w a text :
  open_read w (log_file a) = FileText text ->
  let tx_hashes := scan_lines (Str.file_lines text) [] in
  let receipts := fetched_records w (rpc_url a) 0 tx_hashes in
  tx_hashes <> [] ->
  (forall n tx_hash, well_formed (post w n (rpc_url a) (payload tx_hash))) ->
  write_json w (output a) (JArr receipts) = None ->
  main w a initial =
    summarize a tx_hashes receipts (List.length receipts)
              (List.length tx_hashes - List.length receipts)
              {| trace := trace (fetched_state w a tx_hashes)
                          ++ saved_events (output a) receipts;
                 sent := List.length tx_hashes |}.
Proof.
  intros Hopen tx_hashes receipts Hsome Hwf Hwrite.
  rewrite (main_with_answers w a text Hopen Hsome Hwf). fold tx_hashes receipts.
  unfold bind at 1. now rewrite (save_results_works _ _ _ _ Hwrite).
Qed.

Lemma sample_world_answers log replies written :
  Forall well_formed replies ->
  forall n url body, well_formed (post (sample_world log replies written) n url body).
Proof.
  intros Hall n url body. cbn [post sample_world].
  revert n. induction Hall as [|reply replies Hreply _ IH]; intros [|n]; cbn [nth];
    try exact I; auto.
Qed.

Ltac find_event := vm_compute; repeat ((left; reflexivity) || right).

(** C2, counterexample: the node answers with an empty object as the
    result and no error; the specification counts the fetch as successful,
    the loop counts it as failed and keeps no record. *)
Lemma empty_receipt_is_counted_as_failed :
  answers_with_object [("jsonrpc", JStr "2.0"); ("id", JInt 1); ("result", JObj [])]
    = true
  /\ post empty_receipt_world 0 "http://127.0.0.1:8545" (payload hash_1)
     = JsonBody (JObj [("jsonrpc", JStr "2.0"); ("id", JInt 1); ("result", JObj [])])
  /\ fst (fetch_loop empty_receipt_world "http://127.0.0.1:8545" 1 1 [hash_1]
                     [] 0 0 initial)
     = Return ([], 0, 1).
Proof. repeat split. Qed.

(** C2, as amended: when the node answers the request for a hash with a
    JSON object, the fetch is counted as successful exactly when the object
    has no [error] field and its [result] is true as a Python condition: not
    [null] and, for an object, not empty.  Then the hash is recorded with
    that result and the loop goes on with one more success; otherwise
    nothing is recorded and the loop goes on with one more failure. *)
Theorem fetch_counted_by_result
        (w : world) (url : string) (total i : nat) (tx_hash : string)
        (rest : list string) (receipts : list json) (successful failed : nat)
        (st : state) (d : dict) :
  post w (sent st) url (payload tx_hash) = JsonBody (JObj d) ->
  fetch_loop w url total i (tx_hash :: rest) receipts successful failed st
  = (if answers_with_receipt d
     then fetch_loop w url total (S i) rest
                     (receipts ++ [record tx_hash (Py.dict_get d "result")])
                     (successful + 1) failed
                     (after_fetch w url total i tx_hash st)
     else fetch_loop w url total (S i) rest receipts successful (failed + 1)
                     (after_fetch w url total i tx_hash st))
  /\ (Py.dict_has d "error" = true -> answers_with_receipt d = false)
  /\ (Py.dict_get d "result" = JNull -> answers_with_receipt d = false)
  /\ (forall fields, Py.dict_get d "result" = JObj fields ->
        answers_with_receipt d
        = negb (Py.dict_has d "error")
          && match fields with [] => false | _ :: _ => true end).
Proof.
  intros Hpost. split; [|split; [|split]].
  - destruct (answers_with_receipt d) eqn:Hok.
    + now apply fetch_loop_success.
    + apply fetch_loop_failure; rewrite Hpost; cbn [well_formed fetched];
        [exact I|now rewrite Hok].
  - intros Herr. unfold answers_with_receipt. now rewrite Herr.
  - intros Hnull. unfold answers_with_receipt. rewrite Hnull. apply andb_false_r.
  - intros fields Hobj. unfold answers_with_receipt. rewrite Hobj.
    now destruct fields.
Qed.

Lemma fetch_counted_by_result_witness :
  post usual_world (sent initial) "http://127.0.0.1:8545" (payload hash_1)
  = result_reply (receipt_with_gas (JStr "0x5208"))
  /\ fst (fetch_loop usual_world "http://127.0.0.1:8545" 3 1 [hash_1] [] 0 0 initial)
     = Return ([record hash_1 (receipt_with_gas (JStr "0x5208"))], 1, 0).
Proof.
  split; [reflexivity|].
  pose proof (proj1 (fetch_counted_by_result
                       usual_world "http://127.0.0.1:8545" 3 1 hash_1 [] [] 0 0 initial
                       [("jsonrpc", JStr "2.0"); ("id", JInt 1);
                        ("result", receipt_with_gas (JStr "0x5208"))]
                       eq_refl)) as Hstep.
  rewrite Hstep. reflexivity.
Defined.



(** C7: when the scanner returns no hash, [main] prints that it found
    none and exits with status 0; no request was posted and the output file
    was neither written nor even announced. *)
Theorem no_hashes_exits_early (w : world) (a : args) :
  fst (extract_tx_hashes w (log_file a) initial) = Return [] ->
  let run := main w a initial in
  fst run = SysExit 0
  /\ exit_status (fst run) = 0%Z
  /\ trace (snd run)
     = banner a ++ [Stdout (MsgExtracted 0 (log_file a)); Stdout MsgNoHashes]
  /\ sent (snd run) = 0
  /\ filter is_http_post (trace (snd run)) = []
  /\ filter is_file_written (trace (snd run)) = [].
Proof.
  intros Hextract run.
  assert (Hrun : run = (SysExit 0,
                        {| trace := banner a ++ [Stdout (MsgExtracted 0 (log_file a));
                                                 Stdout MsgNoHashes];
                           sent := 0 |})).
  { unfold extract_tx_hashes in Hextract.
    destruct (open_read w (log_file a)) as [|e|text] eqn:Hopen;
      try discriminate.
    unfold bind, emit, ret in Hextract. cbn [fst] in Hextract.
    injection Hextract as Hnone.
    exact (main_no_hashes w a text Hopen Hnone). }
  rewrite Hrun. repeat split.
Qed.

Lemma no_hashes_exits_early_witness :
  fst (extract_tx_hashes quiet_log_world "spammer.log" initial) = Return []
  /\ fst (main quiet_log_world sample_args initial) = SysExit 0
  /\ filter is_http_post (trace (snd (main quiet_log_world sample_args initial))) = []
  /\ filter is_file_written (trace (snd (main quiet_log_world sample_args initial))) = [].
Proof.
  pose proof (no_hashes_exits_early quiet_log_world sample_args eq_refl)
    as (Hexit & _ & _ & _ & Hposts & Hfiles).
  exact (conj eq_refl (conj Hexit (conj Hposts Hfiles))).
Defined.

(** C8: a log file that does not exist ends the run with a diagnostic on
    the error stream and status 1 before anything is fetched or written; a
    failure to write the output file ends it with a diagnostic and status 1
    as well, after every hash has been requested from the node. *)
Theorem missing_log_and_failed_write_are_fatal (w : world) (a : args) :
  (open_read w (log_file a) = FileNotFound ->
   let run := main w a initial in
   fst run = SysExit 1
   /\ exit_status (fst run) <> 0%Z
   /\ trace (snd run) = banner a ++ [Stderr (MsgFileNotFound (log_file a))]
   /\ filter is_file_written (trace (snd run)) = [])
  /\ (forall text e,
        open_read w (log_file a) = FileText text ->
        let tx_hashes := scan_lines (Str.file_lines text) [] in
        tx_hashes <> [] ->
        (forall n tx_hash, well_formed (post w n (rpc_url a) (payload tx_hash))) ->
        write_json w (output a)
                   (JArr (fetched_by_position w (rpc_url a) 0 tx_hashes)) = Some e ->
        let run := main w a initial in
        fst run = SysExit 1
        /\ exit_status (fst run) <> 0%Z
        /\ trace (snd run)
           = trace (fetched_state w a tx_hashes)
             ++ [Stdout (MsgSaving (output a)); Stderr (MsgWriteError e)]
        /\ List.length (filter is_http_post (trace (snd run))) = List.length tx_hashes
        /\ filter is_file_written (trace (snd run)) = []).
Proof.
  split.
  - intros Hopen run. unfold run. rewrite (main_missing_log w a Hopen).
    repeat split. discriminate.
  - intros text e Hopen tx_hashes Hsome Hwf Hwrite run. unfold run.
    rewrite <- fetched_records_by_position in Hwrite.
    rewrite (main_write_fails w a text e Hopen Hsome Hwf Hwrite). fold tx_hashes.
    cbn [fst snd trace exit_status].
    split; [reflexivity|]. split; [discriminate|]. split; [reflexivity|].
    rewrite !filter_app. cbn [fetched_state trace]. rewrite !filter_app.
    rewrite (forallb_filter_nil _ _ _ quiet_not_written
               (fetch_trace_quiet w (rpc_url a) _ tx_hashes 1 0)).
    split; [|reflexivity].
    cbn [banner filter is_http_post app]. rewrite app_nil_r.
    apply fetch_trace_posts.
Qed.

Lemma missing_log_and_failed_write_are_fatal_witness :
  (open_read missing_log_world "spammer.log" = FileNotFound
   /\ fst (main missing_log_world sample_args initial) = SysExit 1)
  /\ (write_json read_only_world "gas_analyze.json"
        (JArr (fetched_by_position read_only_world "http://127.0.0.1:8545" 0
                 [hash_1; hash_2; hash_3])) = Some "Permission denied"
      /\ fst (main read_only_world sample_args initial) = SysExit 1).
Proof.
  split; (split; [reflexivity|]).
  - exact (proj1 (proj1 (missing_log_and_failed_write_are_fatal
                           missing_log_world sample_args) eq_refl)).
  - refine (proj1 (proj2 (missing_log_and_failed_write_are_fatal
                            read_only_world sample_args)
                         three_hashes "Permission denied" eq_refl _ _ eq_refl)).
    + vm_compute. discriminate.
    + intros n tx_hash. apply sample_world_answers. repeat constructor.
Defined.

Ltac not_quiet H Hall :=
  apply (quiet_in _ _ Hall) in H; discriminate H.

(** Where a line of the summary can be in the trace of a run that saved. *)
Lemma summary_line_place (e : event) (a : args) (receipts : list json)
      (pre summary post : list event) :
  quiet e = false -> is_file_written e = false ->
  forallb quiet pre = true -> forallb quiet post = true ->
  In e (pre ++ saved_events (output a) receipts ++ summary ++ post) ->
  In e summary.
Proof.
  intros Hloud Hline Hpre Hpost Hin.
  apply in_app_or in Hin as [Hin|Hin].
  { apply (quiet_in _ _ Hpre) in Hin. congruence. }
  apply in_app_or in Hin as [Hin|Hin].
  { cbn in Hin. destruct Hin as [<-|[<-|[<-|[]]]]; discriminate. }
  apply in_app_or in Hin as [Hin|Hin]; [exact Hin|].
  apply (quiet_in _ _ Hpost) in Hin. congruence.
Qed.

(** C9: in every run that prints the summary, the number of successes and
    the number of failures it reports add up to the number of transactions
    it reports, which is the number of hashes extracted from the log, and
    the output file was written once, with as many records as there are
    successes. *)
Theorem summary_counts_add_up (w : world) (a : args) (total successful failed : nat) :
  let tr := trace (snd (main w a initial)) in
  In (Stdout (MsgTotal total)) tr ->
  In (Stdout (MsgSuccessful successful)) tr ->
  In (Stdout (MsgFailed failed)) tr ->
  successful + failed = total
  /\ (exists text,
        open_read w (log_file a) = FileText text
        /\ total = List.length (scan_lines (Str.file_lines text) []))
  /\ exists records,
       filter is_file_written tr = [FileWritten (output a) (JArr records)]
       /\ List.length records = successful.
Proof.
  intros tr Htotal Hsucc Hfail.
  destruct (main_shape w a tr eq_refl) as
    [Hquiet|(text & receipts & s & f & pre & summary & post
             & Hopen & Hsum & Hlen & Hpre & Hpost & Hsummary & Htr)].
  { not_quiet Htotal Hquiet. }
  rewrite Htr in Htotal, Hsucc, Hfail.
  apply summary_line_place in Htotal; try reflexivity; try assumption.
  apply summary_line_place in Hsucc; try reflexivity; try assumption.
  apply summary_line_place in Hfail; try reflexivity; try assumption.
  destruct Hsummary as [->| ->]; [contradiction|].
  cbn in Htotal, Hsucc, Hfail.
  destruct Htotal as [H|[H|[H|[H|[H|[]]]]]]; try discriminate H.
  injection H as <-.
  destruct Hsucc as [H|[H|[H|[H|[H|[]]]]]]; try discriminate H.
  injection H as <-.
  destruct Hfail as [H|[H|[H|[H|[H|[]]]]]]; try discriminate H.
  injection H as <-.
  split; [exact Hsum|]. split; [exists text; split; [exact Hopen|reflexivity]|].
  exists receipts. split; [|exact Hlen].
  rewrite Htr, !filter_app.
  rewrite (forallb_filter_nil _ _ pre quiet_not_written Hpre).
  rewrite (forallb_filter_nil _ _ post quiet_not_written Hpost).
  reflexivity.
Qed.

Lemma summary_counts_add_up_witness :
  In (Stdout (MsgTotal 3)) (trace (snd (main usual_world sample_args initial)))
  /\ In (Stdout (MsgSuccessful 2)) (trace (snd (main usual_world sample_args initial)))
  /\ In (Stdout (MsgFailed 1)) (trace (snd (main usual_world sample_args initial)))
  /\ 2 + 1 = 3.
Proof.
  assert (H3 : In (Stdout (MsgTotal 3))
                  (trace (snd (main usual_world sample_args initial))))
    by find_event.
  assert (H2 : In (Stdout (MsgSuccessful 2))
                  (trace (snd (main usual_world sample_args initial))))
    by find_event.
  assert (H1 : In (Stdout (MsgFailed 1))
                  (trace (snd (main usual_world sample_args initial))))
    by find_event.
  repeat (split; [assumption|]).
  exact (proj1 (summary_counts_add_up usual_world sample_args 3 2 1 H3 H2 H1)).
Defined.

(** C10: when the log holds hashes and every fetch fails, be it in
    transport, by an error of the node or by a result that is [null], the
    run still writes the output file, with an empty array; if that works,
    [main] returns and the exit status is 0. *)
Theorem all_fetches_failed_still_saves (w : world) (a : args) (text : string) :
  open_read w (log_file a) = FileText text ->
  let tx_hashes := scan_lines (Str.file_lines text) [] in
  tx_hashes <> [] ->
  (forall n tx_hash,
      well_formed (post w n (rpc_url a) (payload tx_hash))
      /\ fetched (post w n (rpc_url a) (payload tx_hash)) = None) ->
  write_json w (output a) (JArr []) = None ->
  let run := main w a initial in
  fst run = Return tt
  /\ exit_status (fst run) = 0%Z
  /\ filter is_file_written (trace (snd run)) = [FileWritten (output a) (JArr [])]
  /\ In (Stdout (MsgSuccessful 0)) (trace (snd run))
  /\ In (Stdout (MsgFailed (List.length tx_hashes))) (trace (snd run)).
Proof.
  intros Hopen tx_hashes Hsome Hfail Hwrite run.
  assert (Hnone : fetched_records w (rpc_url a) 0 tx_hashes = [])
    by (apply fetched_records_none; intros; apply Hfail).
  assert (Hrun : run = (Return tt,
                        {| trace := (trace (fetched_state w a tx_hashes)
                                     ++ saved_events (output a) [])
                                    ++ summary_lines a (List.length tx_hashes) 0
                                                     (List.length tx_hashes)
                                    ++ [Stdout MsgNoGasData];
                           sent := List.length tx_hashes |})).
  { unfold run. rewrite (main_saves w a text Hopen Hsome); fold tx_hashes.
    - rewrite Hnone. cbn [List.length]. rewrite Nat.sub_0_r.
      apply summarize_nothing_fetched.
    - intros n tx_hash. apply Hfail.
    - now rewrite Hnone. }
  rewrite Hrun. cbn [fst snd trace exit_status].
  split; [reflexivity|]. split; [reflexivity|]. split.
  - cbn [fetched_state trace]. rewrite !filter_app.
    rewrite (forallb_filter_nil _ _ _ quiet_not_written
               (fetch_trace_quiet w (rpc_url a) _ tx_hashes 1 0)).
    reflexivity.
  - split; apply in_or_app; right; cbn; auto.
Qed.

Lemma all_fetches_failed_still_saves_witness :
  fst (main unknowing_world sample_args initial) = Return tt
  /\ filter is_file_written (trace (snd (main unknowing_world sample_args initial)))
     = [FileWritten "gas_analyze.json" (JArr [])].
Proof.
  assert (Hfail : forall n tx_hash,
             well_formed (post unknowing_world n "http://127.0.0.1:8545" (payload tx_hash))
             /\ fetched (post unknowing_world n "http://127.0.0.1:8545" (payload tx_hash))
                = None).
  { intros [|[|[|n]]] tx_hash; split; reflexivity || exact I. }
  pose proof (all_fetches_failed_still_saves
                unknowing_world sample_args three_hashes eq_refl
                ltac:(vm_compute; discriminate) Hfail eq_refl)
    as (Hret & _ & Hfile & _).
  exact (conj Hret Hfile).
Defined.

(** ** Gas statistics *)

Lemma gas_used_of_never_exits (v : json) (code : Z) :
  gas_used_of v <> SysExit code.
Proof.
  destruct v as [|b|z|f|s|items|fields]; cbn; try discriminate.
  - destruct f; cbn; discriminate.
  - unfold int_of_string.
    destruct (Str.startswith s "0x"); destruct (Py.int_of_string _ s); discriminate.
Qed.




Lemma summarize_raises a tx_hashes receipts successful failed st e :
  collect_gas receipts [] = Raised e ->
  summarize a tx_hashes receipts successful failed st = (Raised e, st).
Proof. intros Hraise. unfold summarize, bind, lift. now rewrite Hraise. Qed.






(** C4: a receipt whose [gasUsed] is the number 0 holds a value that
    converts, to 0, yet the loop leaves it out and the run reports that it
    has no gas data; the same amount written ["0x0"] is taken in. *)
Theorem numeric_zero_gas_used_is_left_out :
  gas_used_of (JInt 0) = Return 0%Z
  /\ collect_gas [record hash_1 (receipt_with_gas (JInt 0))] [] = Return []
  /\ collect_gas [record hash_1 (receipt_with_gas (JStr "0x0"))] [] = Return [0%Z]
  /\ fst (main zero_gas_world sample_args initial) = Return tt
  /\ In (Stdout (MsgSuccessful 1))
        (trace (snd (main zero_gas_world sample_args initial)))
  /\ In (Stdout MsgNoGasData)
        (trace (snd (main zero_gas_world sample_args initial))).
Proof. repeat split; find_event. Qed.










(** The instance of the specification, run through [main]. *)
Lemma gas_statistics_instance :
  main instance_world sample_args initial
  = (Return tt,
     {| trace := trace (fetched_state instance_world sample_args
                                      [hash_1; hash_2; hash_3])
                 ++ saved_events "gas_analyze.json" instance_receipts
                 ++ summary_lines sample_args 3 3 0
                 ++ statistics_lines (71000 # 2) 21000 50000 71000;
        sent := 3 |})
  /\ (71000 # 2 == 35500)%Q.
Proof. split; vm_compute; reflexivity. Qed.



(** * Further properties *)

(** ** The scanner, match by match *)

Lemma strip_prefix_app (p : string) : forall s rest,
  Str.strip_prefix p s = Some rest <-> s = (p ++ rest)%string.
Proof.
  induction p as [|a p IH]; intros s rest; cbn [Str.strip_prefix append].
  - split; [now intros [= ->]|now intros ->].
  - destruct s as [|b s].
    + split; discriminate.
    + destruct (Ascii.eqb a b) eqn:Hab.
      * apply Ascii.eqb_eq in Hab. subst b. rewrite IH.
        split; [now intros ->|now intros [= ->]].
      * split; [discriminate|]. intros [= <- _].
        now rewrite Ascii.eqb_refl in Hab.
Qed.

Lemma take_hex_some (n : nat) : forall s digits,
  Pattern.take_hex n s = Some digits ->
  String.length digits = n /\ all_hex digits = true
  /\ exists rest, s = (digits ++ rest)%string.
Proof.
  induction n as [|n IH]; intros s digits; cbn [Pattern.take_hex].
  - intros [= <-]. repeat split. now exists s.
  - destruct s as [|c s]; [discriminate|].
    destruct (Pattern.is_hex c) eqn:Hc; [|discriminate].
    destruct (Pattern.take_hex n s) as [d|] eqn:Hd; [|discriminate].
    intros [= <-]. destruct (IH s d Hd) as (Hlen & Hhex & rest & ->).
    cbn [String.length all_hex]. rewrite Hc, Hhex, Hlen.
    repeat split. now exists rest.
Qed.

Lemma take_hex_app (digits : string) : forall rest,
  all_hex digits = true ->
  Pattern.take_hex (String.length digits) (digits ++ rest) = Some digits.
Proof.
  induction digits as [|c digits IH]; intros rest Hhex; [reflexivity|].
  cbn [all_hex] in Hhex. apply andb_prop in Hhex as [Hc Hd].
  cbn [String.length append Pattern.take_hex]. now rewrite Hc, IH.
Qed.

Lemma match_here_some (s h : string) :
  Pattern.match_here s = Some h <->
  exists digits after,
    s = ("tx_hash=" ++ h ++ after)%string
    /\ h = ("0x" ++ digits)%string
    /\ String.length digits = 64 /\ all_hex digits = true.
Proof.
  unfold Pattern.match_here. split.
  - destruct (Str.strip_prefix "tx_hash=" s) as [after_key|] eqn:Hkey;
      [|discriminate].
    destruct (Str.strip_prefix "0x" after_key) as [tail|] eqn:H0x; [|discriminate].
    destruct (Pattern.take_hex 64 tail) as [digits|] eqn:Hhex; [|discriminate].
    intros [= <-]. apply strip_prefix_app in Hkey, H0x. subst s after_key.
    destruct (take_hex_some _ _ _ Hhex) as (Hlen & Hall & after & ->).
    exists digits, after. repeat split; assumption.
  - intros (digits & after & -> & -> & Hlen & Hall).
    replace (Str.strip_prefix "tx_hash=" ("tx_hash=" ++ ("0x" ++ digits) ++ after))
      with (Some (("0x" ++ digits) ++ after)%string)
      by (symmetry; now apply strip_prefix_app).
    replace (Str.strip_prefix "0x" (("0x" ++ digits) ++ after))
      with (Some (digits ++ after)%string)
      by (symmetry; now apply strip_prefix_app).
    rewrite <- Hlen, take_hex_app by assumption. reflexivity.
Qed.

Lemma search_some (line h : string) :
  Pattern.search line = Some h -> is_tx_hash h /\ holds_hash line h.
Proof.
  induction line as [|c rest IH]; cbn [Pattern.search].
  - destruct (Pattern.match_here "") eqn:Hm; [|discriminate].
    intros [= ->]. apply match_here_some in Hm as (digits & after & Hs & _).
    discriminate Hs.
  - destruct (Pattern.match_here (String c rest)) as [h'|] eqn:Hm.
    + intros [= ->]. apply match_here_some in Hm as (digits & after & Hs & Hh & Hd).
      split; [now exists digits|]. exists EmptyString, after. exact Hs.
    + intros Hrest. destruct (IH Hrest) as [Hh (before & after & ->)].
      split; [exact Hh|]. now exists (String c before), after.
Qed.

Lemma search_of_match (s h : string) :
  Pattern.match_here s = Some h -> Pattern.search s = Some h.
Proof. intros Hm. destruct s; cbn [Pattern.search]; now rewrite Hm. Qed.

Lemma search_finds (line h : string) :
  is_tx_hash h -> holds_hash line h -> exists h', Pattern.search line = Some h'.
Proof.
  intros (digits & Hh & Hd) (before & after & ->).
  induction before as [|c before IH].
  - exists h. apply search_of_match, match_here_some.
    now exists digits, after.
  - destruct IH as [h' Hh']. cbn [append Pattern.search].
    destruct (Pattern.match_here _) as [h''|]; [now exists h''|now exists h'].
Qed.

Lemma scan_lines_in (lines : list string) (h : string) :
  In h (scan_lines lines []) <->
  exists line, In line lines /\ Pattern.search line = Some h.
Proof.
  rewrite scan_lines_acc. cbn [app]. rewrite in_flat_map. split.
  - intros (line & Hin & Hh). exists line. split; [exact Hin|].
    rewrite <- search_leftmost in Hh.
    destruct (Pattern.search line) as [h'|]; [|contradiction].
    destruct Hh as [->|[]]. reflexivity.
  - intros (line & Hin & Hh). exists line. split; [exact Hin|].
    rewrite <- search_leftmost, Hh. now left.
Qed.

(** X1: whatever the log holds, each hash that [extract_tx_hashes]
    returns is [0x] followed by 64 hexadecimal characters, and stands in
    some line of the file right after [tx_hash=]. *)
Theorem extracted_hashes_are_hashes_of_the_log
        (w : world) (path : string) (st : state) (tx_hashes : list string)
        (h : string) :
  fst (extract_tx_hashes w path st) = Return tx_hashes ->
  In h tx_hashes ->
  is_tx_hash h
  /\ exists text line,
       open_read w path = FileText text
       /\ In line (Str.file_lines text) /\ holds_hash line h.
Proof.
  unfold extract_tx_hashes.
  destruct (open_read w path) as [|e|text]; try discriminate.
  unfold bind, emit, ret. cbn [fst]. intros [= <-] Hin.
  apply scan_lines_in in Hin as (line & Hline & Hsearch).
  apply search_some in Hsearch as [Hh Hholds].
  split; [exact Hh|]. now exists text, line.
Qed.

Lemma extracted_hashes_are_hashes_of_the_log_witness :
  fst (extract_tx_hashes usual_world "spammer.log" initial)
  = Return [hash_1; hash_2; hash_3]
  /\ In hash_2 [hash_1; hash_2; hash_3]
  /\ is_tx_hash hash_2.
Proof.
  split; [reflexivity|]. split; [right; left; reflexivity|].
  exact (proj1 (extracted_hashes_are_hashes_of_the_log
                  usual_world "spammer.log" initial [hash_1; hash_2; hash_3] hash_2
                  eq_refl (or_intror (or_introl eq_refl)))).
Defined.

(** X2: the scanner returns no hash exactly when no line of the log holds
    [tx_hash=] followed by a transaction hash; a line that holds one always
    contributes a hash of its own. *)
Theorem no_hash_found_iff_no_line_holds_one (lines : list string) :
  (scan_lines lines [] = [] <->
   forall line h, In line lines -> is_tx_hash h -> ~ holds_hash line h)
  /\ (forall line h,
        In line lines -> is_tx_hash h -> holds_hash line h ->
        exists h', In h' (scan_lines lines []) /\ holds_hash line h').
Proof.
  assert (Hsome : forall line h,
             In line lines -> is_tx_hash h -> holds_hash line h ->
             exists h', In h' (scan_lines lines []) /\ holds_hash line h').
  { intros line h Hin Hh Hholds.
    destruct (search_finds line h Hh Hholds) as [h' Hsearch].
    exists h'. split; [apply scan_lines_in; now exists line|].
    now apply search_some in Hsearch. }
  split; [split|exact Hsome].
  - intros Hnone line h Hin Hh Hholds.
    destruct (Hsome line h Hin Hh Hholds) as (h' & Hin' & _).
    rewrite Hnone in Hin'. contradiction.
  - intros Hfree. destruct (scan_lines lines []) as [|h rest] eqn:Hscan;
      [reflexivity|].
    assert (Hin : In h (scan_lines lines [])) by (rewrite Hscan; now left).
    apply scan_lines_in in Hin as (line & Hline & Hsearch).
    apply search_some in Hsearch as [Hh Hholds].
    now destruct (Hfree line h Hline Hh).
Qed.

Lemma no_hash_found_iff_no_line_holds_one_witness :
  In (log_line hash_2) (Str.file_lines three_lines)
  /\ is_tx_hash hash_2 /\ holds_hash (log_line hash_2) hash_2
  /\ exists h', In h' (scan_lines (Str.file_lines three_lines) [])
                /\ holds_hash (log_line hash_2) h'.
Proof.
  assert (Hin : In (log_line hash_2) (Str.file_lines three_lines))
    by (vm_compute; right; right; left; reflexivity).
  assert (Hh : is_tx_hash hash_2).
  { exists "abcdefABCDEF0123456789abcdefABCDEF0123456789abcdefABCDEF01234567".
    repeat split. }
  assert (Hholds : holds_hash (log_line hash_2) hash_2).
  { exists "2025-10-13T13:11:14.355726Z  INFO spammer: Sent tx with hash. nonce=540895 ",
           line_end. reflexivity. }
  split; [exact Hin|]. split; [exact Hh|]. split; [exact Hholds|].
  exact (proj2 (no_hash_found_iff_no_line_holds_one (Str.file_lines three_lines))
               (log_line hash_2) hash_2 Hin Hh Hholds).
Defined.

(** ** The scanner, line by line *)

Lemma append_assoc (a b c : string) : ((a ++ b) ++ c = a ++ b ++ c)%string.
Proof. induction a as [|x a IH]; cbn [append]; [reflexivity|now rewrite IH]. Qed.

Lemma append_empty (a : string) : (a ++ "")%string = a.
Proof. induction a as [|x a IH]; cbn [append]; [reflexivity|now rewrite IH]. Qed.

Lemma file_lines_app (t1 t2 : string) :
  complete_lines t1 = true ->
  Str.file_lines (t1 ++ t2) = Str.file_lines t1 ++ Str.file_lines t2.
Proof.
  induction t1 as [|c rest IH]; intros Hcomplete; [reflexivity|].
  cbn [append Str.file_lines]. cbn [complete_lines] in Hcomplete.
  destruct rest as [|c' rest'].
  - rewrite Hcomplete. reflexivity.
  - rewrite (IH Hcomplete). destruct (Ascii.eqb c Str.newline); [reflexivity|].
    destruct (Str.file_lines (String c' rest')) as [|line lines] eqn:Hlines;
      [|reflexivity].
    apply file_lines_none in Hlines. discriminate.
Qed.

Lemma scan_lines_app (l1 l2 : list string) :
  scan_lines (l1 ++ l2) [] = scan_lines l1 [] ++ scan_lines l2 [].
Proof. rewrite !scan_lines_acc. cbn [app]. apply flat_map_app. Qed.

(** X3: a log that ends with a line end can be continued: the hashes of
    the longer log are those of the first part followed by those of what was
    appended, so order and repetitions are kept. *)
Theorem appending_to_a_log_appends_hashes (t1 t2 : string) :
  complete_lines t1 = true ->
  hashes_of (t1 ++ t2) = hashes_of t1 ++ hashes_of t2.
Proof.
  intros Hcomplete. unfold hashes_of.
  now rewrite file_lines_app, scan_lines_app.
Qed.

Lemma appending_to_a_log_appends_hashes_witness :
  complete_lines three_lines = true
  /\ hashes_of (three_lines ++ three_lines) = [hash_1; hash_2; hash_1; hash_2].
Proof.
  split; [reflexivity|].
  rewrite (appending_to_a_log_appends_hashes three_lines three_lines eq_refl).
  reflexivity.
Defined.

Lemma free_of_newline_app (a b : string) :
  free_of_newline (a ++ b) = free_of_newline a && free_of_newline b.
Proof.
  induction a as [|c a IH]; cbn [append free_of_newline]; [reflexivity|].
  now rewrite IH, andb_assoc.
Qed.

Lemma all_hex_free_of_newline (s : string) :
  all_hex s = true -> free_of_newline s = true.
Proof.
  induction s as [|c s IH]; [reflexivity|]. cbn [all_hex free_of_newline].
  intros H. apply andb_prop in H as [Hc Hs]. rewrite (IH Hs), andb_true_r.
  destruct (Ascii.eqb c Str.newline) eqn:E; [|reflexivity].
  apply Ascii.eqb_eq in E. subst c. discriminate Hc.
Qed.

Lemma all_decimal_free_of_newline (s : string) :
  all_decimal s = true -> free_of_newline s = true.
Proof.
  induction s as [|c s IH]; [reflexivity|]. cbn [all_decimal free_of_newline].
  intros H. apply andb_prop in H as [Hc Hs]. rewrite (IH Hs), andb_true_r.
  destruct (Ascii.eqb c Str.newline) eqn:E; [|reflexivity].
  apply Ascii.eqb_eq in E. subst c. discriminate Hc.
Qed.

(** A line without inner line end is read as one line. *)
Lemma file_lines_line (body rest : string) :
  free_of_newline body = true ->
  Str.file_lines ((body ++ line_end) ++ rest)
  = (body ++ line_end)%string :: Str.file_lines rest.
Proof.
  induction body as [|c body IH]; intros Hfree; [reflexivity|].
  cbn [free_of_newline] in Hfree. apply andb_prop in Hfree as [Hc Hbody].
  apply negb_true_iff in Hc. cbn [append Str.file_lines].
  now rewrite Hc, (IH Hbody).
Qed.

(** The search steps over characters that cannot open a match. *)
Lemma search_skip (skipped rest : string) :
  all_decimal skipped = true ->
  Pattern.search (skipped ++ rest) = Pattern.search rest.
Proof.
  induction skipped as [|c skipped IH]; intros Hdec; [reflexivity|].
  cbn [all_decimal] in Hdec. apply andb_prop in Hdec as [Hc Hs].
  cbn [append Pattern.search]. rewrite (IH Hs).
  assert (Hm : Pattern.match_here (String c (skipped ++ rest)) = None).
  { unfold Pattern.match_here. cbn [Str.strip_prefix].
    destruct (Ascii.eqb "t" c) eqn:E; [|reflexivity].
    apply Ascii.eqb_eq in E. subst c. discriminate Hc. }
  now rewrite Hm.
Qed.

Lemma search_spammer_line (nonce h : string) :
  all_decimal nonce = true -> is_tx_hash h ->
  Pattern.search (spammer_line nonce h) = Some h.
Proof.
  intros Hnonce (digits & Hh & Hlen & Hhex). unfold spammer_line.
  assert (Hstart : forall rest,
             Pattern.search
               ("2025-10-13T13:11:14.355726Z  INFO malachitebft_eth_utils::spammer: Sent tx with hash. nonce="
                ++ rest) = Pattern.search rest)
    by (intros rest; reflexivity).
  assert (Hblank : forall rest,
             Pattern.search (" " ++ rest) = Pattern.search rest)
    by (intros rest; reflexivity).
  rewrite Hstart, (search_skip nonce _ Hnonce).
  change (" tx_hash=" ++ h ++ line_end)%string
    with (" " ++ "tx_hash=" ++ h ++ line_end)%string.
  rewrite Hblank.
  apply search_of_match, match_here_some. exists digits, line_end.
  repeat split; assumption.
Qed.

Lemma file_lines_spammer_line (nonce h rest : string) :
  all_decimal nonce = true -> is_tx_hash h ->
  Str.file_lines (spammer_line nonce h ++ rest)
  = spammer_line nonce h :: Str.file_lines rest.
Proof.
  intros Hnonce (digits & -> & _ & Hhex). unfold spammer_line.
  set (start := "2025-10-13T13:11:14.355726Z  INFO malachitebft_eth_utils::spammer: Sent tx with hash. nonce=").
  replace (start ++ nonce ++ " tx_hash=" ++ ("0x" ++ digits) ++ line_end)%string
    with ((start ++ nonce ++ " tx_hash=" ++ "0x" ++ digits) ++ line_end)%string
    by (now rewrite !append_assoc).
  apply file_lines_line.
  rewrite !free_of_newline_app.
  rewrite (all_decimal_free_of_newline _ Hnonce), (all_hex_free_of_newline _ Hhex).
  reflexivity.
Qed.

(** X4: a log written in the format the script expects, one line for each
    transaction with a decimal nonce and a transaction hash, gives back
    exactly the hashes that were logged, in the order of the lines and with
    their repetitions. *)
Theorem spammer_log_round_trip (entries : list (string * string)) :
  Forall (fun entry => all_decimal (fst entry) = true /\ is_tx_hash (snd entry))
         entries ->
  hashes_of (spammer_log entries) = map snd entries.
Proof.
  unfold hashes_of.
  induction 1 as [|[nonce h] entries [Hnonce Hh] _ IH]; [reflexivity|].
  cbn [fst snd spammer_log map] in *.
  rewrite (file_lines_spammer_line _ _ _ Hnonce Hh).
  cbn [scan_lines]. rewrite (search_spammer_line _ _ Hnonce Hh).
  rewrite scan_lines_acc. rewrite scan_lines_acc in IH. cbn [app] in *.
  now rewrite IH.
Qed.

Lemma spammer_log_round_trip_witness :
  hashes_of (spammer_log [("540895", hash_1); ("540896", hash_2);
                          ("540897", hash_1)])
  = [hash_1; hash_2; hash_1].
Proof.
  refine (spammer_log_round_trip
            [("540895", hash_1); ("540896", hash_2); ("540897", hash_1)] _).
  repeat (apply Forall_cons; [split; [reflexivity|]|]); try apply Forall_nil.
  - exists "1111111111111111111111111111111111111111111111111111111111111111".
    repeat split.
  - exists "abcdefABCDEF0123456789abcdefABCDEF0123456789abcdefABCDEF01234567".
    repeat split.
  - exists "1111111111111111111111111111111111111111111111111111111111111111".
    repeat split.
Defined.

(** ** The fetch loop, whatever the node answers *)



(** ** The run, whatever the world *)

Lemma main_reaches_loop w a text :
  open_read w (log_file a) = FileText text ->
  hashes_of text <> [] ->
  main w a initial
  = bind (fetch_loop w (rpc_url a) (List.length (hashes_of text)) 1
                     (hashes_of text) [] 0 0)
         (after_loop w a (hashes_of text))
         (loop_start a (hashes_of text)).
Proof.
  intros Hopen Hsome. unfold hashes_of in *.
  unfold main, bind at 1 2 3 4 5 6, emit, extract_tx_hashes.
  cbn [trace sent initial app]. rewrite Hopen.
  unfold bind at 1, emit, ret. cbn [trace sent app].
  destruct (scan_lines (Str.file_lines text) []) as [|first others];
    [congruence|].
  unfold bind at 1. cbn [trace sent app].
  unfold bind, loop_start, after_loop, banner. cbn [app].
  destruct (fetch_loop _ _ _ _ _ _ _ _ _) as [[[[receipts successful] failed]| |] st1];
    reflexivity.
Qed.














(** ** Failures, one by one *)

(** X8: when the log exists but cannot be read, the run prints the
    exception on the error stream and exits with status 1; nothing was
    requested and nothing written. *)
Theorem unreadable_log_is_fatal (w : world) (a : args) (e : string) :
  open_read w (log_file a) = ReadError e ->
  main w a initial
  = (SysExit 1,
     {| trace := banner a ++ [Stderr (MsgReadError e)]; sent := 0 |}).
Proof.
  intros Hopen. unfold main, bind, emit, extract_tx_hashes.
  cbn [trace sent initial app]. rewrite Hopen. reflexivity.
Qed.

Lemma unreadable_log_is_fatal_witness :
  open_read unreadable_log_world "spammer.log" = ReadError "Permission denied"
  /\ exit_status (fst (main unreadable_log_world sample_args initial)) = 1%Z.
Proof.
  split; [reflexivity|].
  now rewrite (unreadable_log_is_fatal unreadable_log_world sample_args
                 "Permission denied" eq_refl).
Defined.

(** X9: a request that fails in transport is counted as failed: the
    exception is printed on the error stream with the hash, a cross is
    printed, nothing is recorded and the loop goes on with the next hash
    without asking again. *)
Theorem transport_failure_counts_as_failed
        (w : world) (url : string) (total i : nat) (tx_hash : string)
        (rest : list string) (receipts : list json) (successful failed : nat)
        (st : state) (e : string) :
  post w (sent st) url (payload tx_hash) = RequestException e ->
  fetch_loop w url total i (tx_hash :: rest) receipts successful failed st
  = fetch_loop w url total (S i) rest receipts successful (failed + 1)
               {| trace := trace st
                           ++ [Stdout (MsgFetching i total tx_hash);
                               HttpPost url (payload tx_hash);
                               Stderr (MsgRequestError tx_hash e);
                               Stdout MsgCross];
                  sent := S (sent st) |}.
Proof.
  intros Hpost. rewrite fetch_loop_failure by (rewrite Hpost; exact I || reflexivity).
  unfold after_fetch, fetch_events. now rewrite Hpost.
Qed.

Lemma transport_failure_counts_as_failed_witness :
  post flaky_world 0 "http://127.0.0.1:8545" (payload hash_1)
  = RequestException "Connection refused"
  /\ fst (fetch_loop flaky_world "http://127.0.0.1:8545" 3 1
                     [hash_1; hash_2; hash_3] [] 0 0 initial)
     = Return ([record hash_2 (receipt_with_gas (JStr "0x5208"));
                record hash_3 (receipt_with_gas (JStr "0xc350"))], 2, 1).
Proof.
  split; [reflexivity|].
  rewrite (transport_failure_counts_as_failed
             flaky_world "http://127.0.0.1:8545" 3 1 hash_1 [hash_2; hash_3]
             [] 0 0 initial "Connection refused" eq_refl).
  reflexivity.
Defined.

Lemma dict_get_missing (d : dict) (key : string) :
  Py.dict_has d key = false -> Py.dict_get d key = JNull.
Proof.
  induction d as [|[k v] d IH]; [reflexivity|]. cbn [Py.dict_has Py.dict_get].
  destruct (String.eqb k key); [discriminate|exact IH].
Qed.

(** X10: an answer that is a JSON object with an [error] field is counted
    as failed whatever else it holds, and the content of the field is
    printed on the error stream with the hash; an answer with neither
    [error] nor [result] is counted as failed without any diagnostic. *)
Theorem error_or_missing_result_counts_as_failed
        (w : world) (url : string) (total i : nat) (tx_hash : string)
        (rest : list string) (receipts : list json) (successful failed : nat)
        (st : state) (d : dict) :
  post w (sent st) url (payload tx_hash) = JsonBody (JObj d) ->
  (Py.dict_has d "error" = true ->
   fetch_loop w url total i (tx_hash :: rest) receipts successful failed st
   = fetch_loop w url total (S i) rest receipts successful (failed + 1)
                {| trace := trace st
                            ++ [Stdout (MsgFetching i total tx_hash);
                                HttpPost url (payload tx_hash);
                                Stderr (MsgRpcError tx_hash (Py.dict_get d "error"));
                                Stdout MsgCross];
                   sent := S (sent st) |})
  /\ (Py.dict_has d "error" = false -> Py.dict_has d "result" = false ->
      fetch_loop w url total i (tx_hash :: rest) receipts successful failed st
      = fetch_loop w url total (S i) rest receipts successful (failed + 1)
                   {| trace := trace st
                               ++ [Stdout (MsgFetching i total tx_hash);
                                   HttpPost url (payload tx_hash);
                                   Stdout MsgCross];
                      sent := S (sent st) |}).
Proof.
  intros Hpost. split.
  - intros Herr. rewrite fetch_loop_failure.
    + unfold after_fetch, fetch_events. now rewrite Hpost, Herr.
    + now rewrite Hpost.
    + rewrite Hpost. cbn [fetched]. unfold answers_with_receipt. now rewrite Herr.
  - intros Herr Hres. apply dict_get_missing in Hres. rewrite fetch_loop_failure.
    + unfold after_fetch, fetch_events. now rewrite Hpost, Herr, Hres.
    + now rewrite Hpost.
    + rewrite Hpost. cbn [fetched]. unfold answers_with_receipt.
      now rewrite Herr, Hres.
Qed.

Lemma error_or_missing_result_counts_as_failed_witness :
  post usual_world 1 "http://127.0.0.1:8545" (payload hash_2) = error_reply
  /\ fst (fetch_loop usual_world "http://127.0.0.1:8545" 3 2 [hash_2] [] 1 0
                     {| trace := []; sent := 1 |})
     = Return ([], 1, 1).
Proof.
  split; [reflexivity|].
  rewrite (proj1 (error_or_missing_result_counts_as_failed
                    usual_world "http://127.0.0.1:8545" 3 2 hash_2 [] [] 1 0
                    {| trace := []; sent := 1 |}
                    [("jsonrpc", JStr "2.0"); ("id", JInt 1);
                     ("error", JObj [("code", JInt (-32000));
                                     ("message", JStr "unknown transaction")])]
                    eq_refl) eq_refl).
  reflexivity.
Defined.

(** The loop over hashes the node answers well, followed by more hashes. *)
Lemma fetch_loop_prefix w url total before rest :
  forall i receipts successful failed st,
    (forall n tx_hash,
        n < sent st + List.length before ->
        well_formed (post w n url (payload tx_hash))) ->
    let fetched_now := fetched_records w url (sent st) before in
    fetch_loop w url total i (before ++ rest) receipts successful failed st
    = fetch_loop w url total (i + List.length before) rest
                 (receipts ++ fetched_now)
                 (successful + List.length fetched_now)
                 (failed + (List.length before - List.length fetched_now))
                 {| trace := trace st ++ fetch_trace w url total i (sent st) before;
                    sent := sent st + List.length before |}.
Proof.
  induction before as [|tx_hash before IH];
    intros i receipts successful failed st Hwf.
  - cbn. rewrite !app_nil_r, !Nat.add_0_r. now destruct st.
  - cbn zeta. cbn [fetched_records fetch_trace List.length app].
    pose proof (fetched_records_length w url (S (sent st)) before) as Hlen.
    assert (Hhead : well_formed (post w (sent st) url (payload tx_hash)))
      by (apply Hwf; cbn [List.length]; lia).
    assert (Hrest : forall n h,
               n < S (sent st) + List.length before ->
               well_formed (post w n url (payload h)))
      by (intros n h Hn; apply Hwf; cbn [List.length]; lia).
    destruct (fetched (post w (sent st) url (payload tx_hash)))
      as [receipt|] eqn:Hf.
    + destruct (post w (sent st) url (payload tx_hash)) as [e|body] eqn:Hpost;
        [discriminate|].
      destruct body; try contradiction. cbn [fetched] in Hf.
      destruct (answers_with_receipt fields) eqn:Hok; [|discriminate].
      injection Hf as <-.
      rewrite (fetch_loop_success _ _ _ _ _ _ _ _ _ _ _ Hpost Hok).
      rewrite IH by exact Hrest.
      unfold after_fetch; cbn [trace sent List.length app].
      rewrite <- !app_assoc. cbn [app].
      f_equal; try lia. f_equal; lia.
    + rewrite (fetch_loop_failure _ _ _ _ _ _ _ _ _ _ Hhead Hf).
      rewrite IH by exact Hrest.
      unfold after_fetch; cbn [trace sent List.length app].
      rewrite <- !app_assoc.
      f_equal; try lia. f_equal; lia.
Qed.

Lemma fetch_trace_requests w url total tx_hashes : forall i n,
  filter is_http_post (fetch_trace w url total i n tx_hashes)
  = map (post_event url) tx_hashes.
Proof.
  induction tx_hashes as [|tx_hash rest IH]; intros i n; [reflexivity|].
  cbn [fetch_trace map]. rewrite filter_app, IH.
  unfold fetch_events. cbn [app filter is_http_post]. unfold post_event.
  destruct (post w n url (payload tx_hash)) as [e|body]; [reflexivity|].
  destruct body; try reflexivity.
  destruct (Py.dict_has fields "error"); [reflexivity|].
  destruct (Py.truthy _); reflexivity.
Qed.

(** An answer that is JSON but no object: the membership test or the
    method call on it raises. *)
Lemma fetch_loop_odd_body w url total i tx_hash rest receipts successful failed
      st body :
  post w (sent st) url (payload tx_hash) = JsonBody body ->
  is_object body = false ->
  exists e,
    (e = TypeError \/ e = AttributeError)
    /\ fetch_loop w url total i (tx_hash :: rest) receipts successful failed st
       = (Raised e,
          {| trace := trace st ++ [Stdout (MsgFetching i total tx_hash);
                                   HttpPost url (payload tx_hash)];
             sent := S (sent st) |}).
Proof.
  intros Hpost Hodd.
  cbn [fetch_loop]. unfold bind, emit, fetch_transaction_receipt, bind, http_post.
  cbn [trace sent]. rewrite Hpost.
  destruct body; try discriminate Hodd; cbn [receipt_of_body]; unfold raise;
    rewrite <- ?app_assoc; cbn [app].
  1-4: exists TypeError; split; [now left|reflexivity].
  - destruct (Str.contains "error" s); eexists; (split; [|reflexivity]); auto.
  - destruct (existsb _ items); eexists; (split; [|reflexivity]); auto.
Qed.

(** X11: when the node answers well up to some hash and then with a JSON
    value that is no object, the exception this causes is not caught: the
    run ends with a traceback, status 1, right after that request; the
    output file is not written and no summary is printed. *)
Theorem non_object_answer_ends_the_run
        (w : world) (a : args) (text : string)
        (before : list string) (tx_hash : string) (after : list string)
        (body : json) :
  open_read w (log_file a) = FileText text ->
  hashes_of text = before ++ tx_hash :: after ->
  (forall n h, n < List.length before ->
               well_formed (post w n (rpc_url a) (payload h))) ->
  post w (List.length before) (rpc_url a) (payload tx_hash) = JsonBody body ->
  is_object body = false ->
  let run := main w a initial in
  (fst run = Raised TypeError \/ fst run = Raised AttributeError)
  /\ exit_status (fst run) = 1%Z
  /\ filter is_http_post (trace (snd run))
     = map (post_event (rpc_url a)) (before ++ [tx_hash])
  /\ filter is_file_written (trace (snd run)) = []
  /\ ~ In (Stdout MsgSummary) (trace (snd run)).
Proof.
  intros Hopen Hhashes Hwf Hpost Hodd run.
  assert (Hrun : exists e,
             (e = TypeError \/ e = AttributeError)
             /\ run = (Raised e,
                       {| trace := (trace (loop_start a (hashes_of text))
                                    ++ fetch_trace w (rpc_url a)
                                         (List.length (hashes_of text)) 1 0 before)
                                   ++ [Stdout (MsgFetching (1 + List.length before)
                                                 (List.length (hashes_of text))
                                                 tx_hash);
                                       HttpPost (rpc_url a) (payload tx_hash)];
                          sent := S (List.length before) |})).
  { unfold run. rewrite (main_reaches_loop w a text Hopen)
      by (rewrite Hhashes; now destruct before).
    set (total := List.length (hashes_of text)).
    set (start := loop_start a (hashes_of text)).
    assert (Hstart : sent start = 0) by reflexivity.
    unfold bind at 1. rewrite Hhashes.
    rewrite fetch_loop_prefix by (rewrite Hstart; exact Hwf).
    rewrite Hstart. cbn [Nat.add].
    match goal with
    | |- context [fetch_loop w ?u ?t ?i (tx_hash :: after) ?r ?s ?f ?st] =>
        destruct (fetch_loop_odd_body w u t i tx_hash after r s f st body)
          as (e & He & ->); [exact Hpost|exact Hodd|]
    end.
    exists e. split; [exact He|]. reflexivity. }
  destruct Hrun as (e & He & ->). cbn [fst snd trace exit_status].
  split; [destruct He as [-> | ->]; auto|]. split; [reflexivity|].
  assert (Hquiet : forallb quiet
                     ((trace (loop_start a (hashes_of text))
                       ++ fetch_trace w (rpc_url a)
                            (List.length (hashes_of text)) 1 0 before)
                      ++ [Stdout (MsgFetching (1 + List.length before)
                                    (List.length (hashes_of text)) tx_hash);
                          HttpPost (rpc_url a) (payload tx_hash)]) = true).
  { rewrite !forallb_app, fetch_trace_quiet. reflexivity. }
  split; [|split].
  - rewrite !filter_app, fetch_trace_requests, map_app. reflexivity.
  - exact (forallb_filter_nil _ _ _ quiet_not_written Hquiet).
  - intros Hin. apply (quiet_in _ _ Hquiet) in Hin. discriminate Hin.
Qed.

Lemma non_object_answer_ends_the_run_witness :
  post odd_gateway_world 1 "http://127.0.0.1:8545" (payload hash_2)
  = JsonBody (JArr [JStr "error"; JStr "bad gateway"])
  /\ fst (main odd_gateway_world sample_args initial) = Raised TypeError
  /\ filter is_file_written
            (trace (snd (main odd_gateway_world sample_args initial))) = [].
Proof.
  split; [reflexivity|].
  destruct (non_object_answer_ends_the_run
              odd_gateway_world sample_args three_hashes
              [hash_1] hash_2 [hash_3] (JArr [JStr "error"; JStr "bad gateway"])
              eq_refl eq_refl) as (_ & _ & _ & Hfile & _).
  - intros [|n] h Hn; [exact I|cbn in Hn; lia].
  - reflexivity.
  - reflexivity.
  - split; [reflexivity|exact Hfile].
Defined.

(** One turn of the statistics loop on a record as [main] builds it. *)
Lemma collect_gas_fetched tx_hash receipt rest gas_used_values :
  Py.truthy receipt = true ->
  collect_gas (record tx_hash receipt :: rest) gas_used_values
  = outcome_bind (py_get receipt "gasUsed") (fun gas_used_hex =>
      if Py.truthy gas_used_hex
      then outcome_bind (gas_used_of gas_used_hex) (fun gas_used =>
             collect_gas rest (gas_used_values ++ [gas_used]))
      else collect_gas rest gas_used_values).
Proof.
  intros Htrue. cbn [collect_gas record py_get Py.dict_get outcome_bind].
  change (String.eqb "tx_hash" "receipt") with false.
  change (String.eqb "receipt" "receipt") with true. cbv iota.
  now rewrite Htrue.
Qed.

(** X12: a result that is true as a condition but no object, a string for
    instance, is recorded and saved like a receipt; the statistics loop then
    raises on it or before it, so that [main] ends with a traceback after
    the file was written and before the summary. *)
Theorem non_object_receipt_stops_the_statistics
        (tx_hashes : list string) (receipts : list json) :
  Forall (is_fetched_record tx_hashes) receipts ->
  Exists (fun item => exists tx_hash receipt,
              item = record tx_hash receipt /\ is_object receipt = false)
         receipts ->
  exists e,
    collect_gas receipts [] = Raised e
    /\ forall a successful failed st,
        summarize a tx_hashes receipts successful failed st = (Raised e, st).
Proof.
  intros Hrec Hodd.
  assert (Hraise : forall gas_used_values,
             exists e, collect_gas receipts gas_used_values = Raised e).
  { induction Hrec as [|item rest (h & r & -> & _ & Htrue) _ IH]; intros acc.
    - inversion Hodd.
    - rewrite (collect_gas_fetched _ _ _ _ Htrue).
      destruct r as [|b|z|f|s|items|fields];
        try (now exists AttributeError).
      cbn [py_get outcome_bind].
      assert (Hrest : Exists (fun item => exists tx_hash receipt,
                                  item = record tx_hash receipt
                                  /\ is_object receipt = false) rest).
      { inversion Hodd as [? ? (h' & r' & Heq & Hno)|]; subst; [|assumption].
        injection Heq as _ <-. discriminate Hno. }
      destruct (Py.truthy (Py.dict_get fields "gasUsed")); [|now apply IH].
      destruct (gas_used_of _) as [g|code|e] eqn:Hgas; cbn [outcome_bind].
      + now apply IH.
      + now apply gas_used_of_never_exits in Hgas.
      + now exists e. }
  destruct (Hraise []) as [e He]. exists e. split; [exact He|].
  intros. now apply summarize_raises.
Qed.

Lemma non_object_receipt_stops_the_statistics_witness :
  fst (main string_result_world sample_args initial) = Raised AttributeError
  /\ filter is_file_written
            (trace (snd (main string_result_world sample_args initial)))
     = [FileWritten "gas_analyze.json" (JArr [record hash_1 (JStr "pending")])]
  /\ exists e, collect_gas [record hash_1 (JStr "pending")] [] = Raised e.
Proof.
  split; [reflexivity|]. split; [reflexivity|].
  destruct (non_object_receipt_stops_the_statistics
              [hash_1] [record hash_1 (JStr "pending")]) as (e & He & _).
  - constructor; [|constructor]. exists hash_1, (JStr "pending").
    repeat split. now left.
  - left. now exists hash_1, (JStr "pending").
  - now exists e.
Defined.

(** ** Numbers *)























(** ** Progress *)

Ltac count_marks :=
  cbn [app filter is_progress is_tick is_cross List.length Nat.add negb andb];
  repeat split; try reflexivity; lia.

Lemma fetch_trace_progress w url total tx_hashes : forall i n,
  (forall k tx_hash, well_formed (post w k url (payload tx_hash))) ->
  filter is_progress (fetch_trace w url total i n tx_hashes)
  = progress_lines total i tx_hashes
  /\ List.length (filter is_tick (fetch_trace w url total i n tx_hashes))
     = List.length (fetched_records w url n tx_hashes)
  /\ List.length (filter is_cross (fetch_trace w url total i n tx_hashes))
     = List.length tx_hashes - List.length (fetched_records w url n tx_hashes).
Proof.
  unfold progress_lines.
  induction tx_hashes as [|tx_hash rest IH]; intros i n Hwf;
    [repeat split|].
  destruct (IH (S i) (S n) Hwf) as (Hprogress & Hticks & Hcrosses).
  pose proof (fetched_records_length w url (S n) rest) as Hlen.
  cbn [fetch_trace fetched_records List.length seq combine map].
  rewrite !filter_app, !length_app, Hprogress, Hticks, Hcrosses.
  unfold fetch_events, fetched. specialize (Hwf n tx_hash).
  destruct (post w n url (payload tx_hash)) as [e|body].
  - count_marks.
  - destruct body; try contradiction.
    unfold answers_with_receipt.
    destruct (Py.dict_has fields "error"); [count_marks|].
    destruct (Py.truthy (Py.dict_get fields "result")); count_marks.
Qed.

(** X16: with a node that answers every request, the loop prints one
    progress line for each hash, numbered from 1 in the order of the input
    and showing the total, and after each of them one mark: as many ticks
    as fetches counted successful and as many crosses as counted failed. *)
Theorem progress_is_numbered_and_marked
        (w : world) (url : string) (tx_hashes : list string) :
  (forall k tx_hash, well_formed (post w k url (payload tx_hash))) ->
  let total := List.length tx_hashes in
  exists receipts successful failed added,
    fetch_loop w url total 1 tx_hashes [] 0 0 initial
    = (Return (receipts, successful, failed),
       {| trace := added; sent := total |})
    /\ filter is_progress added = progress_lines total 1 tx_hashes
    /\ List.length (filter is_tick added) = successful
    /\ List.length (filter is_cross added) = failed
    /\ successful + failed = total.
Proof.
  intros Hwf total.
  rewrite (fetch_loop_returns w url total Hwf tx_hashes 1 [] 0 0 initial).
  cbn [trace sent initial app Nat.add].
  destruct (fetch_trace_progress w url total tx_hashes 1 0 Hwf)
    as (Hprogress & Hticks & Hcrosses).
  pose proof (fetched_records_length w url 0 tx_hashes) as Hlen.
  eexists. eexists. eexists. eexists. split; [reflexivity|].
  split; [exact Hprogress|]. split; [exact Hticks|]. split; [exact Hcrosses|].
  fold total in Hlen |- *. lia.
Qed.

Lemma progress_is_numbered_and_marked_witness :
  exists receipts added,
    fetch_loop usual_world "http://127.0.0.1:8545" 3 1 [hash_1; hash_2; hash_3]
               [] 0 0 initial
    = (Return (receipts, 2, 1), {| trace := added; sent := 3 |})
    /\ filter is_progress added
       = [Stdout (MsgFetching 1 3 hash_1); Stdout (MsgFetching 2 3 hash_2);
          Stdout (MsgFetching 3 3 hash_3)].
Proof.
  destruct (progress_is_numbered_and_marked
              usual_world "http://127.0.0.1:8545" [hash_1; hash_2; hash_3])
    as (receipts & successful & failed & added & Hrun & Hprogress & _).
  - intros k tx_hash. apply sample_world_answers. repeat constructor.
  - cbn [List.length] in Hrun.
    assert (Hcounts : fst (fetch_loop usual_world "http://127.0.0.1:8545" 3 1
                                      [hash_1; hash_2; hash_3] [] 0 0 initial)
                      = Return (receipts, successful, failed))
      by now rewrite Hrun.
    vm_compute in Hcounts. injection Hcounts as _ <- <-.
    exists receipts, added. split; [exact Hrun|exact Hprogress].
Defined.


